(** * acos_config: reconciliation of an ACOS device configuration

    A shallow embedding of [lib/ansible/modules/network/a10/acos_config.py]:
    the line normaliser, the "what is missing" diff, the candidate splice and
    the control flow of [main], with the device session as an explicit state
    and every call to it recorded in a trace. *)

From Stdlib Require Import Ascii.
From Stdlib Require String.
From stdpp Require Import base option list strings gmap.

Set Default Proof Using "Type".

(** ** Python string primitives used by the module *)

Module Py.

(** Code points below 256 for which [str.isspace] holds. *)
Definition isspace (c : ascii) : bool :=
  let n := nat_of_ascii c in
  bool_decide (9 ≤ n ≤ 13) || bool_decide (28 ≤ n ≤ 32)
  || bool_decide (n = 133) || bool_decide (n = 160).

(** [s.startswith(p)] *)
Definition startswith (p s : string) : bool := String.prefix p s.

Fixpoint lstrip (s : string) : string :=
  match s with
  | EmptyString => EmptyString
  | String c s' => if isspace c then lstrip s' else s
  end.

Fixpoint rstrip (s : string) : string :=
  match s with
  | EmptyString => EmptyString
  | String c s' =>
      match rstrip s' with
      | EmptyString => if isspace c then EmptyString else String c EmptyString
      | r => String c r
      end
  end.

(** [s.strip()] *)
Definition strip (s : string) : string := rstrip (lstrip s).

Definition newline : ascii := ascii_of_nat 10.

(** [s.split('\n')]: one more piece than there are newlines. *)
Fixpoint split_lines (s : string) : list string :=
  match s with
  | EmptyString => [EmptyString]
  | String c s' =>
      if decide (c = newline) then EmptyString :: split_lines s'
      else match split_lines s' with
           | h :: t => String c h :: t
           | [] => [String c EmptyString]
           end
  end.

(** Truth value of a list, of a string, and of an optional parameter
    ([None], the empty list and the empty string are false). *)
Definition truthy_list {A} (l : list A) : bool :=
  match l with [] => false | _ => true end.

Definition truthy_str (s : string) : bool :=
  match s with EmptyString => false | _ => true end.

Definition truthy {A} (o : option (list A)) : bool :=
  match o with Some l => truthy_list l | None => false end.

Definition truthy_path (o : option string) : bool :=
  match o with Some s => truthy_str s | None => false end.

(** The elements a [for] loop visits in a parameter known to be a list. *)
Definition items {A} (o : option (list A)) : list A := default [] o.

(** [x in l] on a list of strings. *)
Definition mem (x : string) (l : list string) : bool := bool_decide (x ∈ l).

(** [all(c.isspace() for c in s)] *)
Fixpoint all_space (s : string) : bool :=
  match s with
  | EmptyString => true
  | String c s' => isspace c && all_space s'
  end.

(** The last character of [s] is whitespace. *)
Fixpoint ends_with_space (s : string) : bool :=
  match s with
  | EmptyString => false
  | String c EmptyString => isspace c
  | String _ s' => ends_with_space s'
  end.

End Py.

(** ** The diff engine and the line normaliser *)

(** The literal [ignore_list] of [get_diff]. *)
Definition ignore_list : list string :=
  [ ""; "!"; "exit-module"; "Show default startup-config";
    "Building configuration..." ].

(** The [for item in intended_config] loop of [get_diff]: the accumulator is
    the list [diff], extended at its end. *)
Definition get_diff_loop (candidate_config : list string)
    (diff : list string) (intended_config : list string) : list string :=
  foldl (fun diff item =>
           if negb (Py.startswith "!" item) then
             if negb (Py.mem item candidate_config)
                && negb (Py.mem item ignore_list)
             then diff ++ [item] else diff
           else diff)
        diff intended_config.

Definition get_diff (intended_config candidate_config diff_ignore_lines
                     : list string) : list string :=
  let diff := get_diff_loop candidate_config [] intended_config in
  if Py.truthy_list diff_ignore_lines
  then List.filter (fun x => negb (Py.mem x diff_ignore_lines)) diff
  else diff.

(** [configuration_to_list(configuration)], where [configuration] is the
    response list of [run_commands] and [raw] its first element. *)
Definition configuration_to_list (raw : string) : list string :=
  foldl (fun sanitized_config_list line =>
           if negb (Py.startswith "!" line)
           then sanitized_config_list ++ [Py.strip line]
           else sanitized_config_list)
        [] (Py.split_lines raw).

(** [get_list_from_params(command_lines)]; an absent parameter and an empty
    list are both false, and both give the empty list. *)
Definition get_list_from_params (command_lines : option (list string))
    : list string :=
  if Py.truthy command_lines
  then foldl (fun candidate_obj_list line =>
                candidate_obj_list ++ [Py.strip line])
             [] (Py.items command_lines)
  else [].

(** The final comparison of [main]:
    [len(list(set(after_config_list) - set(before_config_list))) != 0]. *)
Definition config_changed (before_config_list after_config_list : list string)
    : bool :=
  let diff : list string :=
    elements ((list_to_set after_config_list : gset string)
              ∖ list_to_set before_config_list) in
  negb (Nat.eqb (length diff) 0).

(** ** Parameters, result and device session *)

Inductive SaveWhen := always | never | modified | changed.

(** [choices=['startup']] *)
Inductive DiffAgainst := startup.

Global Instance SaveWhen_eq_dec : EqDecision SaveWhen.
Proof. solve_decision. Defined.

Global Instance DiffAgainst_eq_dec : EqDecision DiffAgainst.
Proof. solve_decision. Defined.

(** [module.params], with [module.check_mode] and [module._diff]; a list
    parameter that was not given is [None]. *)
Record Params := {
  lines : option (list string);
  intended_config : option (list string);
  parents : option (list string);
  before : option (list string);
  after : option (list string);
  multiline_delimiter : string;
  defaults : bool;
  backup : bool;
  save_when : SaveWhen;
  diff_against : option DiffAgainst;
  diff_ignore_lines : option (list string);
  file_path : option string;
  check_mode : bool;
  diff_mode : bool
}.

(** The [result] dictionary; a key that was never set is [None].
    [startup_diff] can be set to Python's [None], hence the nested option.
    The key [warnings] keeps the empty list it is given at the start and is
    left out: [module.warn] does not write to it, and is an event below. *)
Record Result := {
  r_changed : bool;
  r_backup : option string;
  r_commands : option (list string);
  r_updates : option (list string);
  r_success : option bool;
  r_failed_diff_lines_between_intended_candidate : option (list string);
  r_diff_against_found : option string;
  r_startup_diff : option (option (list string))
}.

Definition result_init : Result :=
  {| r_changed := false; r_backup := None; r_commands := None;
     r_updates := None; r_success := None;
     r_failed_diff_lines_between_intended_candidate := None;
     r_diff_against_found := None; r_startup_diff := None |}.

Definition set_changed (b : bool) (r : Result) : Result :=
  {| r_changed := b; r_backup := r_backup r; r_commands := r_commands r;
     r_updates := r_updates r; r_success := r_success r;
     r_failed_diff_lines_between_intended_candidate :=
       r_failed_diff_lines_between_intended_candidate r;
     r_diff_against_found := r_diff_against_found r;
     r_startup_diff := r_startup_diff r |}.

Definition set_backup (c : string) (r : Result) : Result :=
  {| r_changed := r_changed r; r_backup := Some c; r_commands := r_commands r;
     r_updates := r_updates r; r_success := r_success r;
     r_failed_diff_lines_between_intended_candidate :=
       r_failed_diff_lines_between_intended_candidate r;
     r_diff_against_found := r_diff_against_found r;
     r_startup_diff := r_startup_diff r |}.

Definition set_commands (c : list string) (r : Result) : Result :=
  {| r_changed := r_changed r; r_backup := r_backup r; r_commands := Some c;
     r_updates := Some c; r_success := r_success r;
     r_failed_diff_lines_between_intended_candidate :=
       r_failed_diff_lines_between_intended_candidate r;
     r_diff_against_found := r_diff_against_found r;
     r_startup_diff := r_startup_diff r |}.

(** [result.update({'success': s, ...})]; the mismatch list is only written
    in the failing branch. *)
Definition set_success (s : bool) (found_diff : option (list string))
    (r : Result) : Result :=
  {| r_changed := r_changed r; r_backup := r_backup r;
     r_commands := r_commands r; r_updates := r_updates r;
     r_success := Some s;
     r_failed_diff_lines_between_intended_candidate :=
       match found_diff with
       | Some d => Some d
       | None => r_failed_diff_lines_between_intended_candidate r
       end;
     r_diff_against_found := r_diff_against_found r;
     r_startup_diff := r_startup_diff r |}.

(** [result.update({'diff_against_found': f, 'changed': c, 'startup_diff': d})] *)
Definition set_startup_diff (f : string) (c : bool) (d : option (list string))
    (r : Result) : Result :=
  {| r_changed := c; r_backup := r_backup r;
     r_commands := r_commands r; r_updates := r_updates r;
     r_success := r_success r;
     r_failed_diff_lines_between_intended_candidate :=
       r_failed_diff_lines_between_intended_candidate r;
     r_diff_against_found := Some f;
     r_startup_diff := Some d |}.

(** How a run ends: [module.exit_json] with the result, or
    [module.fail_json] with a message. *)
Inductive Outcome :=
| ExitJson (result : Result)
| FailJson (msg : string).

(** The two texts passed to [module.warn]; the first one ends with
    [str(difference)]. *)
Inductive Warning :=
| CouldNotExecute (difference : list string)
| SkippingWriteMemory.

(** What the run does to the outside, in the order it does it; a call that
    returns text is recorded with the text. *)
Inductive Event :=
| RunCommands (command : string) (response : string)
| EditConfig (candidate : list string)
| GetConfig (with_default : bool) (response : string)
| Backup (contents : string)
| Warn (w : Warning).

Global Instance Warning_eq_dec : EqDecision Warning.
Proof. solve_decision. Defined.

Global Instance Event_eq_dec : EqDecision Event.
Proof. solve_decision. Defined.

(** The device session behind [run_commands], [connection.edit_config] and
    [get_config] ([ansible.module_utils.network.a10.acos]): each call
    answers with text and may change the device. *)
Record Device := {
  dev_state : Type;
  dev_run_command : string → dev_state → string * dev_state;
  dev_edit_config : list string → dev_state → dev_state;
  dev_get_config : bool → dev_state → string * dev_state
}.

(** What the run takes from [ansible.module_utils.network.common.config] and
    from the control host:
    - [nc_dumps_raw lines parents] is
      [dumps(c, 'raw')] after [c = NetworkConfig(indent=1)] and
      [c.add(lines, parents=parents)];
    - [nc_sha1 ignore_lines contents] is
      [NetworkConfig(indent=1, contents=contents, ignore_lines=ignore_lines).sha1];
    - [host_readlines path] is [open(path, 'r').readlines()], [None] when
      that raises [IOError]. *)
Record Host := {
  nc_dumps_raw : list string → list string → string;
  nc_sha1 : option (list string) → string → string;
  host_readlines : string → option (list string)
}.

Definition write_memory : string :=
  String.append "write memory" (String (ascii_of_nat 13) EmptyString).

Section Run.

Context (D : Device) (H : Host) (p : Params).

Record World := { device : dev_state D; trace : list Event }.

(** State passing over the device and the trace. *)
Definition M (A : Type) : Type := World → A * World.

Definition ret {A} (a : A) : M A := fun w => (a, w).

Definition bind {A B} (m : M A) (k : A → M B) : M B :=
  fun w => let (a, w') := m w in k a w'.

Local Notation "x <- m ;; k" := (bind m (fun x => k))
  (at level 100, m at next level, right associativity).
Local Notation "m >> k" := (bind m (fun _ => k))
  (at level 100, right associativity).

Definition emit (e : Event) : M unit :=
  fun w => (tt, {| device := device w; trace := trace w ++ [e] |}).

(** [run_commands(module, command)[0]] *)
Definition run_commands (command : string) : M string :=
  fun w =>
    let (out, d) := dev_run_command D command (device w) in
    (out, {| device := d; trace := trace w ++ [RunCommands command out] |}).

(** [connection.edit_config(candidate=commands)] *)
Definition edit_config_or_macro (commands : list string) : M unit :=
  fun w =>
    (tt, {| device := dev_edit_config D commands (device w);
            trace := trace w ++ [EditConfig commands] |}).

(** [get_config(module, flags=flags)], where [flags] is ['with-default']
    exactly when [defaults] is set. *)
Definition get_config (with_default : bool) : M string :=
  fun w =>
    let (out, d) := dev_get_config D with_default (device w) in
    (out, {| device := d;
             trace := trace w ++ [GetConfig with_default out] |}).

Definition warn (x : Warning) : M unit := emit (Warn x).

Fixpoint for_each {A} (l : list A) (body : A → M unit) : M unit :=
  match l with
  | [] => ret tt
  | x :: l' => body x >> for_each l' body
  end.

(** [check_args]: the message of [fail_json], if it is called. *)
Definition check_args : option string :=
  if Py.truthy_str (multiline_delimiter p) then
    if negb (Nat.eqb (String.length (multiline_delimiter p)) 2)
    then Some "multiline_delimiter value can only be oneor two characters"
    else None
  else None.

Definition get_candidate_config : string :=
  if Py.truthy (lines p)
  then nc_dumps_raw H (Py.items (lines p)) (Py.items (parents p))
  else "".

(** [get_intended_config(module)]. The source iterates over the parameter
    without a test and raises when it is absent; [main] calls it only under
    [if module.params['intended_config']], and the model is the function on
    a parameter that is a list. *)
Definition get_intended_config : list string :=
  foldl (fun intended_obj_list line => intended_obj_list ++ [Py.strip line])
        [] (Py.items (intended_config p)).

Definition save_config : M unit :=
  if negb (check_mode p)
  then run_commands write_memory >> ret tt
  else warn SkippingWriteMemory.

(** The [if module.params['file_path']] block; [false] when [IOError] was
    caught. *)
Definition load_file : M bool :=
  if Py.truthy_path (file_path p) then
    match host_readlines H (default "" (file_path p)) with
    | None => ret false
    | Some command_lines =>
        run_commands "configure" >>
        for_each command_lines (fun line =>
          if negb (Py.startswith "!" line)
          then run_commands (Py.strip line) >> ret tt
          else ret tt) >>
        run_commands "exit" >>
        ret true
    end
  else ret true.

(** [diff_against == 'running'], which the declared choices exclude. *)
Definition diff_against_running : bool :=
  match diff_against p with
  | Some startup => false
  | None => false
  end.

Definition backup_step (result : Result) : M Result :=
  if backup p || (diff_mode p && diff_against_running) then
    contents <- get_config (defaults p) ;;
    if backup p
    then emit (Backup contents) >> ret (set_backup contents result)
    else ret result
  else ret result.

(** The command list built in the [if module.params['lines']] block. *)
Definition build_commands (config_diff : string) : list string :=
  let commands := Py.split_lines config_diff in
  let commands :=
    if Py.truthy (before p) then Py.items (before p) ++ commands
    else commands in
  let commands :=
    if Py.truthy (after p) then commands ++ Py.items (after p)
    else commands in
  commands.

Definition candidate_step (result : Result) : M Result :=
  if Py.truthy (lines p) then
    let candidate := get_candidate_config in
    let config_diff := candidate in
    if Py.truthy_str config_diff then
      let commands := build_commands config_diff in
      let result := set_commands commands result in
      if negb (check_mode p) then
        if Py.truthy_list commands then
          edit_config_or_macro commands >>
          ret (set_changed true result)
        else ret result
      else ret result
    else ret result
  else ret result.

Definition candidate_lines : list string := get_list_from_params (lines p).

Definition diff_ignore_lines_list : list string :=
  get_list_from_params (diff_ignore_lines p).

Definition drift_step (running_config_list : list string) : M unit :=
  let difference :=
    get_diff candidate_lines running_config_list diff_ignore_lines_list in
  if negb (Nat.eqb (length difference) 0)
  then warn (CouldNotExecute difference)
  else ret tt.

Definition intended_step (result : Result) : Result :=
  if Py.truthy (intended_config p) then
    let intended_config_list := get_intended_config in
    let found_diff :=
      get_diff intended_config_list candidate_lines diff_ignore_lines_list in
    if negb (Nat.eqb (length found_diff) 0)
    then set_success false (Some found_diff) result
    else set_success true None result
  else result.

(** The save policy. Under [modified], [run_commands] is called once with
    the two show commands; the device answers them in order, and [output0],
    [output1] are the two answers. *)
Definition save_step (result : Result) : M unit :=
  match save_when p with
  | always => save_config
  | modified =>
      output0 <- run_commands "show running-config" ;;
      output1 <- run_commands "show startup-config" ;;
      if negb (String.eqb (nc_sha1 H (diff_ignore_lines p) output0)
                          (nc_sha1 H (diff_ignore_lines p) output1))
      then save_config
      else ret tt
  | changed => if r_changed result then save_config else ret tt
  | never => ret tt
  end.

Definition startup_diff_step (startup_config_list running_config_list
                              : list string) (result : Result) : Result :=
  if bool_decide (diff_against p = Some startup) then
    let difference_with_startup_config :=
      get_diff startup_config_list running_config_list
               diff_ignore_lines_list in
    if negb (Nat.eqb (length difference_with_startup_config) 0)
    then set_startup_diff "yes" true
           (Some difference_with_startup_config) result
    else set_startup_diff "no" false None result
  else result.

Definition final_step (before_config_list : list string) (result : Result)
    : M Result :=
  raw <- run_commands "show running-config" ;;
  let after_config_list := configuration_to_list raw in
  ret (set_changed (config_changed before_config_list after_config_list)
                   result).

(** The part of [main] after the candidate source has been read: from the
    backup block to the result as it stands before the last snapshot. *)
Definition reconcile (result : Result) : M (list string * list string * Result) :=
  result <- backup_step result ;;
  result <- candidate_step result ;;
  running_raw <- run_commands "show running-config" ;;
  startup_raw <- run_commands "show startup-config" ;;
  let running_config_list := configuration_to_list running_raw in
  let startup_config_list := configuration_to_list startup_raw in
  drift_step running_config_list >>
  let result := intended_step result in
  save_step result >>
  ret (startup_config_list, running_config_list, result).

Definition main : M Outcome :=
  match check_args with
  | Some msg => ret (FailJson msg)
  | None =>
      before_raw <- run_commands "show running-config" ;;
      let before_config_list := configuration_to_list before_raw in
      ok <- load_file ;;
      if ok then
        snapshot <- reconcile result_init ;;
        let '(startup_config_list, running_config_list, result) :=
          snapshot in
        let result :=
          startup_diff_step startup_config_list running_config_list result in
        result <- final_step before_config_list result ;;
        ret (ExitJson result)
      else ret (FailJson "File Not Found!")
  end.

(** Run [main] on a device in state [d], with an empty trace. *)
Definition run (d : dev_state D) : Outcome * World :=
  main {| device := d; trace := [] |}.

End Run.

Arguments device {D} _.
Arguments trace {D} _.

(** ** A small device, to run the model on concrete inputs

    The running configuration is a list of lines: a command [no x] removes
    the line [x], any other command adds itself as a line unless it is
    there already, and [write memory] copies the running configuration to
    the startup configuration. *)

Module Toy.

Record state := { running_cfg : list string; startup_cfg : list string }.

Definition text (l : list string) : string :=
  String.concat (String Py.newline EmptyString) l.

Definition apply (s : state) (c : string) : state :=
  if String.prefix "no " c then
    let x := String.substring 3 (String.length c - 3) c in
    {| running_cfg := List.filter (fun l => negb (String.eqb l x)) (running_cfg s);
       startup_cfg := startup_cfg s |}
  else if Py.mem c (running_cfg s) then s
  else {| running_cfg := running_cfg s ++ [c]; startup_cfg := startup_cfg s |}.

Definition run_command (c : string) (s : state) : string * state :=
  if String.eqb c "show running-config" then (text (running_cfg s), s)
  else if String.eqb c "show startup-config" then (text (startup_cfg s), s)
  else if String.eqb c write_memory
       then ("", {| running_cfg := running_cfg s; startup_cfg := running_cfg s |})
  else if Py.mem c ["configure"; "exit"] then ("", s)
  else ("", apply s c).

Definition device : Device :=
  {| dev_state := state;
     dev_run_command := run_command;
     dev_edit_config := fun cmds s => foldl apply s cmds;
     dev_get_config := fun _ s => (text (running_cfg s), s) |}.

(** The candidate is serialised flat, the fingerprint of a text is the
    text, and one file exists on the control host. *)
Definition host : Host :=
  {| nc_dumps_raw := fun lines parents => text (parents ++ lines);
     nc_sha1 := fun _ contents => contents;
     host_readlines := fun path =>
       if String.eqb path "/root/slb.txt"
       then Some [String.append "slb server s1 10.0.0.1"
                                (String Py.newline EmptyString);
                  String.append "!comment"
                                (String Py.newline EmptyString);
                  "no ip dns primary 8.8.4.7"]
       else None |}.

(** The defaults of the argument spec, with nothing else given. *)
Definition params : Params :=
  {| lines := None; intended_config := None; parents := None;
     before := None; after := None; multiline_delimiter := "/n";
     defaults := false; backup := false; save_when := never;
     diff_against := None; diff_ignore_lines := None; file_path := None;
     check_mode := false; diff_mode := false |}.

Definition with_lines (l : list string) (q : Params) : Params :=
  {| lines := Some l; intended_config := intended_config q;
     parents := parents q; before := before q; after := after q;
     multiline_delimiter := multiline_delimiter q; defaults := defaults q;
     backup := backup q; save_when := save_when q;
     diff_against := diff_against q;
     diff_ignore_lines := diff_ignore_lines q; file_path := file_path q;
     check_mode := check_mode q; diff_mode := diff_mode q |}.

Definition with_save_when (s : SaveWhen) (q : Params) : Params :=
  {| lines := lines q; intended_config := intended_config q;
     parents := parents q; before := before q; after := after q;
     multiline_delimiter := multiline_delimiter q; defaults := defaults q;
     backup := backup q; save_when := s;
     diff_against := diff_against q;
     diff_ignore_lines := diff_ignore_lines q; file_path := file_path q;
     check_mode := check_mode q; diff_mode := diff_mode q |}.

Definition with_file_path (f : string) (q : Params) : Params :=
  {| lines := lines q; intended_config := intended_config q;
     parents := parents q; before := before q; after := after q;
     multiline_delimiter := multiline_delimiter q; defaults := defaults q;
     backup := backup q; save_when := save_when q;
     diff_against := diff_against q;
     diff_ignore_lines := diff_ignore_lines q; file_path := Some f;
     check_mode := check_mode q; diff_mode := diff_mode q |}.

Definition with_check_mode (b : bool) (q : Params) : Params :=
  {| lines := lines q; intended_config := intended_config q;
     parents := parents q; before := before q; after := after q;
     multiline_delimiter := multiline_delimiter q; defaults := defaults q;
     backup := backup q; save_when := save_when q;
     diff_against := diff_against q;
     diff_ignore_lines := diff_ignore_lines q; file_path := file_path q;
     check_mode := b; diff_mode := diff_mode q |}.

Definition with_intended (l : list string) (q : Params) : Params :=
  {| lines := lines q; intended_config := Some l;
     parents := parents q; before := before q; after := after q;
     multiline_delimiter := multiline_delimiter q; defaults := defaults q;
     backup := backup q; save_when := save_when q;
     diff_against := diff_against q;
     diff_ignore_lines := diff_ignore_lines q; file_path := file_path q;
     check_mode := check_mode q; diff_mode := diff_mode q |}.

Definition with_before_after (b a : list string) (q : Params) : Params :=
  {| lines := lines q; intended_config := intended_config q;
     parents := parents q; before := Some b; after := Some a;
     multiline_delimiter := multiline_delimiter q; defaults := defaults q;
     backup := backup q; save_when := save_when q;
     diff_against := diff_against q;
     diff_ignore_lines := diff_ignore_lines q; file_path := file_path q;
     check_mode := check_mode q; diff_mode := diff_mode q |}.

Definition with_diff_against_startup (q : Params) : Params :=
  {| lines := lines q; intended_config := intended_config q;
     parents := parents q; before := before q; after := after q;
     multiline_delimiter := multiline_delimiter q; defaults := defaults q;
     backup := backup q; save_when := save_when q;
     diff_against := Some startup;
     diff_ignore_lines := diff_ignore_lines q; file_path := file_path q;
     check_mode := check_mode q; diff_mode := diff_mode q |}.

Definition run (q : Params) (s : state) : Outcome * World device :=
  run device host q s.

(** Concrete device states and parameter sets. *)
Definition dns : string := "ip dns primary 8.8.4.7".

Definition hostname : string := "hostname acos".

Definition s_dns : state :=
  {| running_cfg := [dns; hostname]; startup_cfg := [hostname] |}.

Definition s_saved : state :=
  {| running_cfg := [hostname]; startup_cfg := [hostname] |}.

(** The startup configuration still has a line the running one lost. *)
Definition s_stale : state :=
  {| running_cfg := [hostname]; startup_cfg := [dns; hostname] |}.

(** Remove the DNS line. *)
Definition p_remove : Params := with_lines ["no ip dns primary 8.8.4.7"] params.


(** Save when modified. *)
Definition p_save_modified : Params := with_save_when modified params.

(** Load a file that does not exist. *)
Definition p_missing_file : Params := with_file_path "/root/absent.txt" params.

(** Scenario E: intended lines a and b, explicit line a. *)
Definition p_intended : Params :=
  with_intended ["a"; "b"] (with_lines ["a"] params).

(** Explicit lines between a before and an after block. *)
Definition p_splice : Params :=
  with_before_after ["slb server s1 10.0.0.1"] ["exit"; "end"]
    (with_lines ["port 80 tcp"; "port 443 tcp"] params).

(** Diff against the startup configuration. *)
Definition p_diff_startup : Params := with_diff_against_startup params.

End Toy.

(** ** Vocabulary of the specification *)

(** A line that starts with the comment marker. *)
Definition comment_line (L : string) : Prop :=
  match L with
  | String c _ => c = ascii_of_nat 33
  | EmptyString => False
  end.

Global Instance comment_line_dec L : Decision (comment_line L).
Proof. destruct L; simpl; apply _. Defined.

(** What the diff reports: a line of [expected] that is no comment, is in
    neither ignore list and is not a member of [actual]. *)
Definition reported (actual ignore : list string) (L : string) : Prop :=
  ¬ comment_line L ∧ (L ∉ ignore_list) ∧ (L ∉ ignore) ∧ (L ∉ actual).

Global Instance reported_dec actual ignore L : Decision (reported actual ignore L).
Proof. unfold reported. apply _. Defined.

(** The symmetric difference of two line sets, as the specification words
    the change test. *)
Definition symmetric_difference (before_lines after_lines : list string)
    : gset string :=
  (list_to_set before_lines ∖ list_to_set after_lines)
  ∪ (list_to_set after_lines ∖ list_to_set before_lines).

(** The events through which the run touches the device configuration. *)
Definition is_persist (e : Event) : Prop :=
  ∃ out, e = RunCommands write_memory out.

Definition is_submit_batch (e : Event) : Prop :=
  ∃ commands, e = EditConfig commands.

(** A read-only fetch of a configuration text. *)
Definition is_fetch (e : Event) : Prop :=
  ∃ out, e = RunCommands "show running-config" out
         ∨ e = RunCommands "show startup-config" out.

(** ** The shape of a run

    What a completed run is expected to leave in the trace, segment by
    segment, as a function of the parameters and of the texts the device
    answered. *)

Definition show_running (out : string) : Event :=
  RunCommands "show running-config" out.

Definition show_startup (out : string) : Event :=
  RunCommands "show startup-config" out.

(** [evs] are calls of [run_commands], one per command of [commands], in
    order. *)
Definition runs_commands (commands : list string) (evs : list Event) : Prop :=
  Forall2 (fun c e => ∃ out, e = RunCommands c out) commands evs.

(** The commands of the file block: enter configuration mode, one command
    per line of the file that does not start with the comment marker, leave
    configuration mode. *)
Definition file_commands (H : Host) (p : Params) : list string :=
  if Py.truthy_path (file_path p) then
    match host_readlines H (default "" (file_path p)) with
    | Some command_lines =>
        ["configure"]
        ++ (Py.strip <$> filter (fun line => ¬ comment_line line) command_lines)
        ++ ["exit"]
    | None => []
    end
  else [].

(** The backup block: the configuration is read and handed to [backup]. *)
Definition backup_trace (p : Params) (evs : list Event) (r r' : Result)
    : Prop :=
  if backup p
  then ∃ contents, evs = [GetConfig (defaults p) contents; Backup contents]
                   ∧ r' = set_backup contents r
  else evs = [] ∧ r' = r.

(** A command list is built when explicit lines are given and their
    serialisation is not empty; it is sent unless the run is a dry run. *)
Definition built (H : Host) (p : Params) : bool :=
  Py.truthy (lines p) && Py.truthy_str (get_candidate_config H p).

Definition submitted (H : Host) (p : Params) : bool :=
  built H p && negb (check_mode p).

(** before ++ normalize(lines) ++ after *)
Definition spliced_commands (H : Host) (p : Params) : list string :=
  Py.items (before p) ++ Py.split_lines (get_candidate_config H p)
  ++ Py.items (after p).

Definition edit_events (H : Host) (p : Params) : list Event :=
  if submitted H p then [EditConfig (spliced_commands H p)] else [].

Definition candidate_result (H : Host) (p : Params) (r : Result) : Result :=
  if built H p then
    if check_mode p then set_commands (spliced_commands H p) r
    else set_changed true (set_commands (spliced_commands H p) r)
  else r.

Definition drift_events (p : Params) (running_raw : string) : list Event :=
  let difference :=
    get_diff (get_list_from_params (lines p))
             (configuration_to_list running_raw)
             (get_list_from_params (diff_ignore_lines p)) in
  if decide (difference = []) then []
  else [Warn (CouldNotExecute difference)].

(** What [save_config] leaves: the save command, or under a dry run the
    warning. *)
Definition persist_trace (p : Params) (evs : list Event) : Prop :=
  if check_mode p then evs = [Warn SkippingWriteMemory]
  else ∃ out, evs = [RunCommands write_memory out].

(** The save policy, given the value [changed4] of [result['changed']] when
    the policy is applied. *)
Definition save_trace (H : Host) (p : Params) (changed4 : bool)
    (evs : list Event) : Prop :=
  match save_when p with
  | always => persist_trace p evs
  | never => evs = []
  | modified =>
      ∃ output0 output1 evs',
        evs = [show_running output0; show_startup output1] ++ evs'
        ∧ if decide (nc_sha1 H (diff_ignore_lines p) output0
                     = nc_sha1 H (diff_ignore_lines p) output1)
          then evs' = []
          else persist_trace p evs'
  | changed => if changed4 then persist_trace p evs else evs = []
  end.

(** What a completed run observed: the four configuration texts it was
    answered, the events of the file block, of the backup block and of the
    save policy, and the result as it stands after the backup block. *)
Record Observation := {
  o_before : string;
  o_running : string;
  o_startup : string;
  o_after : string;
  o_file : list Event;
  o_backup : list Event;
  o_backed_up : Result;
  o_save : list Event
}.

(** The trace of a completed run: the first snapshot, the file block, the
    backup block, the batch, the second snapshot of running and startup
    configuration, the drift warning, the save policy and the last
    snapshot. *)
Definition completed_trace (H : Host) (p : Params) (tr : list Event)
    (o : Observation) : Prop :=
  tr = [show_running (o_before o)] ++ o_file o ++ o_backup o
       ++ edit_events H p
       ++ [show_running (o_running o); show_startup (o_startup o)]
       ++ drift_events p (o_running o) ++ o_save o
       ++ [show_running (o_after o)]
  ∧ runs_commands (file_commands H p) (o_file o)
  ∧ backup_trace p (o_backup o) result_init (o_backed_up o)
  ∧ save_trace H p (submitted H p) (o_save o).

(** The result of a completed run: the batch, the intent check and the
    startup diff write their keys, then [changed] is overwritten from the
    first and the last snapshot. *)
Definition exit_result (H : Host) (p : Params) (o : Observation) : Result :=
  set_changed
    (config_changed (configuration_to_list (o_before o))
                    (configuration_to_list (o_after o)))
    (startup_diff_step p (configuration_to_list (o_startup o))
       (configuration_to_list (o_running o))
       (intended_step p (candidate_result H p (o_backed_up o)))).

(** ** Further functions of the module, and inputs to run them *)

(** [get_running_config(module, current_config, flags)]. The parameter
    [running_config] of the module is passed as an argument here; [flags]
    is whether the with-default flag is given to [get_config]. *)
Definition get_running_config (D : Device) (p : Params)
    (running_config current_config : option string) (flags : bool)
    : M D string :=
  let running := running_config in
  if negb (Py.truthy_path running) then
    if negb (defaults p) && Py.truthy_path current_config
    then ret D (default "" current_config)
    else get_config D flags
  else ret D (default "" running).

(** No character of [s] is a line break. *)
Fixpoint no_newline (s : string) : bool :=
  match s with
  | EmptyString => true
  | String c s' => negb (bool_decide (c = Py.newline)) && no_newline s'
  end.

(** ['\n'.join(l)] *)
Definition join_lines (l : list string) : string :=
  String.concat (String Py.newline EmptyString) l.

(** A line with no whitespace at either end: trimming leaves it as it is. *)
Definition trimmed (s : string) : Prop := Py.strip s = s.

(** A warning of the drift check. *)
Definition is_drift_warning (e : Event) : Prop :=
  ∃ difference, e = Warn (CouldNotExecute difference).

(** An event of the backup block. *)
Definition is_backup_event (e : Event) : Prop :=
  (∃ flags contents, e = GetConfig flags contents)
  ∨ (∃ contents, e = Backup contents).

(** An event left by [save_config], the persist action: the save command
    or, in a dry run, the warning that it is skipped. *)
Definition is_save_config (e : Event) : Prop :=
  is_persist e ∨ e = Warn SkippingWriteMemory.

(** A command that only reads a configuration text. *)
Definition is_show_command (c : string) : Prop :=
  c = "show running-config" ∨ c = "show startup-config".

(** [main] up to the call that takes the last snapshot: the message of
    [fail_json], or the lines of the first snapshot and the [result]
    dictionary as it stands when the last snapshot is about to be taken. *)
Definition main_before_last_snapshot (D : Device) (H : Host) (p : Params)
    : M D (string + list string * Result) :=
  match check_args p with
  | Some msg => ret D (inl msg)
  | None =>
      bind D (run_commands D "show running-config") (fun before_raw =>
      let before_config_list := configuration_to_list before_raw in
      bind D (load_file D H p) (fun ok =>
      if ok then
        bind D (reconcile D H p result_init) (fun snapshot =>
        let '(startup_config_list, running_config_list, result) :=
          snapshot in
        ret D (inr (before_config_list,
                    startup_diff_step p startup_config_list
                                      running_config_list result)))
      else ret D (inl "File Not Found!")))
  end.

(** [s] behind [n] spaces. *)
Fixpoint indent (n : nat) (s : string) : string :=
  match n with
  | 0 => s
  | S n' => String (ascii_of_nat 32) (indent n' s)
  end.

(** Modelled from the spec: the candidate items that
    [NetworkConfig(indent=1).add(lines, parents)] holds for [dumps(.., 'raw')]
    ([ansible.module_utils.network.common.config], which is not among the
    sources). Each line is associated under its parent chain and indented:
    the parents come first, each behind one space per level above it, then
    the explicit lines in the order given, each behind one space per
    parent. *)
Definition candidate_items (lines parents : list string) : list string :=
  imap indent parents ++ (indent (length parents) <$> lines).

(** Modelled from the spec: the items serialised to a flat ordered text,
    one item per line. *)
Definition dumps_raw (lines parents : list string) : string :=
  join_lines (candidate_items lines parents).

Module Inputs.

(** A delimiter of one character, which [check_args] refuses. *)
Definition p_bad_delimiter : Params :=
  {| lines := Some [Toy.hostname]; intended_config := None; parents := None;
     before := None; after := None; multiline_delimiter := ";";
     defaults := false; backup := false; save_when := always;
     diff_against := None; diff_ignore_lines := None; file_path := None;
     check_mode := false; diff_mode := false |}.

(** A dry run with a file, explicit lines and [save_when = always]. *)
Definition p_dry_run : Params :=
  Toy.with_check_mode true
    (Toy.with_save_when always
       (Toy.with_lines [Toy.hostname]
          (Toy.with_file_path "/root/slb.txt" Toy.params))).

(** [save_when = always], nothing else. *)
Definition p_save_always : Params := Toy.with_save_when always Toy.params.

(** A backup, with explicit lines and a file. *)
Definition p_backup : Params :=
  {| lines := Some ["port 80 tcp"]; intended_config := None; parents := None;
     before := None; after := None; multiline_delimiter := "/n";
     defaults := true; backup := true; save_when := never;
     diff_against := None; diff_ignore_lines := None;
     file_path := Some "/root/slb.txt";
     check_mode := false; diff_mode := false |}.

(** A before and an after block, and no explicit lines. *)
Definition p_before_only : Params :=
  Toy.with_before_after ["configure"] ["end"] Toy.params.

(** A line the toy device stores in another form: it is removed. *)
Definition p_drift : Params := Toy.with_lines ["no hostname acos"] Toy.params.

(** Scenario E with the missing intended line in the before block. *)
Definition p_intended_before : Params :=
  Toy.with_before_after ["b"] [] Toy.p_intended.

(** The toy host with the serialiser of the specification. *)
Definition host_spec : Host :=
  {| nc_dumps_raw := dumps_raw;
     nc_sha1 := nc_sha1 Toy.host;
     host_readlines := host_readlines Toy.host |}.

(** Explicit lines under a parent, between a before and an after block. *)
Definition p_splice_parent : Params :=
  {| lines := Some ["port 80 tcp"; "port 443 tcp"]; intended_config := None;
     parents := Some ["slb server s1 10.0.0.1"];
     before := Some ["no slb server s0"]; after := Some ["end"];
     multiline_delimiter := "/n";
     defaults := false; backup := false; save_when := never;
     diff_against := None; diff_ignore_lines := None; file_path := None;
     check_mode := false; diff_mode := false |}.

(** An intended configuration, and lines with whitespace around them. *)
Definition p_intended_padded : Params :=
  Toy.with_intended [" a "; "b  "] Toy.params.

End Inputs.

(** ** The definitions on small inputs *)

Example strip_ex : Py.strip "  port 80 tcp  " = "port 80 tcp".
Proof. reflexivity. Qed.

Example split_lines_ex :
  Py.split_lines ("a" +:+ String Py.newline EmptyString +:+ "b"
                  +:+ String Py.newline EmptyString)
  = ["a"; "b"; ""].
Proof. reflexivity. Qed.

Example get_diff_ex :
  get_diff ["a"; "!c"; "b"; ""; "b"; "x"] ["a"] ["x"] = ["b"; "b"].
Proof. vm_compute. reflexivity. Qed.

Example configuration_to_list_ex :
  configuration_to_list
    ("!top" +:+ String Py.newline EmptyString +:+ " ip x "
     +:+ String Py.newline EmptyString +:+ " !y")
  = ["ip x"; "!y"].
Proof. vm_compute. reflexivity. Qed.

Example config_changed_removed : config_changed ["a"; "b"] ["a"] = false.
Proof. vm_compute. reflexivity. Qed.

Example config_changed_added : config_changed ["a"] ["b"; "a"] = true.
Proof. vm_compute. reflexivity. Qed.

Example scenario_a :
  ∃ w, Toy.run (Toy.with_lines [Toy.dns] Toy.params)
               {| Toy.running_cfg := []; Toy.startup_cfg := [] |}
       = (ExitJson (set_changed true (set_commands [Toy.dns] result_init)), w).
Proof. eexists. vm_compute. reflexivity. Qed.

(** ** The diff engine *)

Lemma startswith_bang L : Py.startswith "!" L = true ↔ comment_line L.
Proof.
  unfold Py.startswith, comment_line.
  destruct L as [|c L]; [split; [discriminate | tauto]|].
  destruct (decide (c = ascii_of_nat 33)) as [->|Hne].
  { split; [done | intros _; by destruct L]. }
  split; [|done].
  cbn -[ascii_dec].
  destruct (ascii_dec _ c) as [<-|_]; [by destruct Hne | discriminate].
Qed.

Lemma mem_true x l : Py.mem x l = true ↔ x ∈ l.
Proof. unfold Py.mem. apply bool_decide_eq_true. Qed.

Lemma mem_false x l : Py.mem x l = false ↔ x ∉ l.
Proof. unfold Py.mem. apply bool_decide_eq_false. Qed.

Lemma get_diff_loop_filter actual acc expected :
  get_diff_loop actual acc expected
  = acc ++ filter (fun L => ¬ comment_line L ∧ (L ∉ ignore_list)
                                        ∧ (L ∉ actual))
                  expected.
Proof.
  unfold get_diff_loop. revert acc.
  induction expected as [|L expected IH]; intros acc; simpl.
  - by rewrite app_nil_r.
  - rewrite IH. clear IH.
    destruct (Py.startswith "!" L) eqn:Hc; simpl.
    + apply startswith_bang in Hc.
      rewrite filter_cons_False; [done | tauto].
    + assert (¬ comment_line L) as Hn
        by (intros Hx; apply startswith_bang in Hx; congruence).
      destruct (Py.mem L actual) eqn:Ha; simpl.
      * apply mem_true in Ha. rewrite filter_cons_False; [done | tauto].
      * apply mem_false in Ha.
        destruct (Py.mem L ignore_list) eqn:Hi; simpl.
        -- apply mem_true in Hi. rewrite filter_cons_False; [done | tauto].
        -- apply mem_false in Hi.
           rewrite filter_cons_True by tauto. by rewrite <- app_assoc.
Qed.

Lemma list_filter_negb_mem (ignore l : list string) :
  List.filter (fun x => negb (Py.mem x ignore)) l = filter (.∉ ignore) l.
Proof.
  induction l as [|x l IH]; simpl; [done|].
  destruct (Py.mem x ignore) eqn:Hm; simpl.
  - apply mem_true in Hm. rewrite filter_cons_False; [done | tauto].
  - apply mem_false in Hm. rewrite filter_cons_True by done. by rewrite IH.
Qed.

Lemma get_diff_filter expected actual ignore :
  get_diff expected actual ignore = filter (reported actual ignore) expected.
Proof.
  unfold get_diff. rewrite get_diff_loop_filter. simpl.
  destruct ignore as [|i ignore]; simpl Py.truthy_list; cbv iota.
  - apply list_filter_iff. intros L. unfold reported.
    rewrite elem_of_nil. tauto.
  - rewrite list_filter_negb_mem, list_filter_filter.
    apply list_filter_iff. intros L. unfold reported. tauto.
Qed.

Lemma elem_of_get_diff L expected actual ignore :
  L ∈ get_diff expected actual ignore ↔ L ∈ expected ∧ reported actual ignore L.
Proof. rewrite get_diff_filter, list_elem_of_filter. tauto. Qed.

Lemma filter_none {A} (P : A → Prop) `{∀ x, Decision (P x)} (l : list A) :
  (∀ x, x ∈ l → ¬ P x) → filter P l = [].
Proof.
  induction l as [|x l IH]; intros Hl; [done|].
  rewrite filter_cons_False by (apply Hl; left).
  apply IH. intros y Hy. apply Hl. by right.
Qed.

(** C2. The diff is the filter of [expected], in its order, by: not a
    comment, not a built-in ignore literal, not in the caller's ignore list,
    not a member of [actual]. An empty [expected] gives nothing, an empty
    [actual] leaves only the comment and ignore tests, the lines of
    [expected] are tested one by one (the diff of a concatenation is the
    concatenation of the diffs) and a reported line keeps all its
    occurrences. *)
Theorem get_diff_spec expected actual ignore :
  get_diff expected actual ignore = filter (reported actual ignore) expected
  ∧ get_diff [] actual ignore = []
  ∧ get_diff expected [] ignore
    = filter (fun L => ¬ comment_line L ∧ (L ∉ ignore_list) ∧ (L ∉ ignore))
             expected
  ∧ (∀ e1 e2, get_diff (e1 ++ e2) actual ignore
              = get_diff e1 actual ignore ++ get_diff e2 actual ignore)
  ∧ (∀ L, length (filter (L =.) (get_diff expected actual ignore))
          = if decide (reported actual ignore L)
            then length (filter (L =.) expected) else 0).
Proof.
  split; [apply get_diff_filter|].
  split; [by rewrite get_diff_filter|].
  split.
  { rewrite get_diff_filter. apply list_filter_iff. intros L.
    unfold reported. rewrite elem_of_nil. tauto. }
  split.
  { intros e1 e2. by rewrite !get_diff_filter, filter_app. }
  intros L. rewrite get_diff_filter, list_filter_filter.
  destruct (decide (reported actual ignore L)) as [Hr|Hr].
  - f_equal. apply list_filter_iff. intros x. split; [tauto|].
    intros <-. tauto.
  - rewrite filter_none; [done|]. intros x _ [<- Hx]. tauto.
Qed.

(** C3. A line of the ignore set (built-in literals or caller-supplied) is
    never reported, whatever [expected] and [actual] are; the test is
    equality of whole lines: a line of [expected] that is no comment, is
    missing from [actual] and equals no ignore entry is reported, so the
    entry "clock set" does not hide the line "clock set 00:00". *)
Theorem ignore_set_exclusion expected actual ignore :
  (∀ L, L ∈ ignore_list ++ ignore → L ∉ get_diff expected actual ignore)
  ∧ (∀ X, X ∈ expected → ¬ comment_line X → X ∉ actual →
          X ∉ ignore_list ++ ignore →
          X ∈ get_diff expected actual ignore)
  ∧ get_diff ["clock set 00:00"; "clock set"] [] ["clock set"]
    = ["clock set 00:00"].
Proof.
  split; [|split].
  - intros L HL Hin. apply elem_of_get_diff in Hin as [_ (_ & Hb & Hi & _)].
    apply elem_of_app in HL as [HL|HL]; tauto.
  - intros X HX Hc Ha Hi. apply elem_of_get_diff. split; [done|].
    rewrite elem_of_app in Hi. unfold reported. tauto.
  - vm_compute. reflexivity.
Qed.

Lemma ignore_set_exclusion_witness :
  ("exit-module" ∉ get_diff ["exit-module"; "ip x"] [] ["clock set"])
  ∧ ("ip x" ∈ get_diff ["exit-module"; "ip x"] [] ["clock set"]).
Proof.
  destruct (ignore_set_exclusion ["exit-module"; "ip x"] [] ["clock set"])
    as (Hex & Hin & _).
  split.
  - apply Hex. vm_compute. right. right. left.
  - apply Hin.
    + right. left.
    + simpl. discriminate.
    + apply not_elem_of_nil.
    + apply (bool_decide_eq_false_1 _). vm_compute. reflexivity.
Defined.

(** ** The line normaliser and the change test *)

Lemma configuration_to_list_loop acc (l : list string) :
  foldl (fun sanitized_config_list line =>
           if negb (Py.startswith "!" line)
           then sanitized_config_list ++ [Py.strip line]
           else sanitized_config_list) acc l
  = acc ++ (Py.strip <$> filter (fun line => ¬ comment_line line) l).
Proof.
  revert acc. induction l as [|x l IH]; intros acc; simpl.
  - by rewrite app_nil_r.
  - rewrite IH. destruct (Py.startswith "!" x) eqn:Hc; simpl.
    + apply startswith_bang in Hc. rewrite filter_cons_False; [done | tauto].
    + rewrite filter_cons_True.
      * by rewrite fmap_cons, <- app_assoc.
      * intros Hx. apply startswith_bang in Hx. congruence.
Qed.

Lemma configuration_to_list_filter raw :
  configuration_to_list raw
  = Py.strip <$> filter (fun line => ¬ comment_line line) (Py.split_lines raw).
Proof. unfold configuration_to_list. by rewrite configuration_to_list_loop. Qed.

Lemma isspace_bang : Py.isspace (ascii_of_nat 33) = false.
Proof. reflexivity. Qed.

Lemma lstrip_space_prefix ws s :
  Py.all_space ws = true → Py.lstrip (ws +:+ s) = Py.lstrip s.
Proof.
  induction ws as [|c ws IH]; simpl; [done|].
  intros [Hc Hws]%andb_true_iff. rewrite Hc. by apply IH.
Qed.

Lemma rstrip_keeps_head c s :
  Py.isspace c = false → ∃ r, Py.rstrip (String c s) = String c r.
Proof.
  intros Hc. simpl. destruct (Py.rstrip s); [rewrite Hc|]; eauto.
Qed.

Lemma strip_indented_comment ws rest :
  Py.all_space ws = true → comment_line (Py.strip (ws +:+ "!" +:+ rest)).
Proof.
  intros Hws. unfold Py.strip. rewrite lstrip_space_prefix by done.
  change ("!" +:+ rest) with (String (ascii_of_nat 33) rest).
  cbn [Py.lstrip]. rewrite isspace_bang.
  destruct (rstrip_keeps_head (ascii_of_nat 33) rest isspace_bang) as [r ->].
  reflexivity.
Qed.

Lemma indented_not_comment ws s :
  Py.all_space ws = true → ws ≠ "" → ¬ comment_line (ws +:+ s).
Proof.
  destruct ws as [|c ws]; [done|]. simpl.
  intros [Hc _]%andb_true_iff _ ->. by rewrite isspace_bang in Hc.
Qed.

Lemma config_changed_true before_lines after_lines :
  config_changed before_lines after_lines = true
  ↔ ∃ l, l ∈ after_lines ∧ l ∉ before_lines.
Proof.
  unfold config_changed.
  set (X := (list_to_set after_lines : gset string) ∖ list_to_set before_lines).
  rewrite negb_true_iff, Nat.eqb_neq.
  change (length (elements X)) with (size X).
  rewrite size_non_empty_iff. unfold X.
  split.
  - intros [l Hl]%set_choose. exists l.
    apply elem_of_difference in Hl as [Ha Hb].
    rewrite elem_of_list_to_set in Ha. rewrite elem_of_list_to_set in Hb. done.
  - intros (l & Ha & Hb) Hempty.
    assert (l ∈ (list_to_set after_lines : gset string) ∖ list_to_set before_lines)
      as Hin by (apply elem_of_difference; rewrite !elem_of_list_to_set; done).
    apply Hempty in Hin. by apply not_elem_of_empty in Hin.
Qed.

Lemma config_changed_false before_lines after_lines :
  config_changed before_lines after_lines = false
  ↔ ∀ l, l ∈ after_lines → l ∈ before_lines.
Proof.
  rewrite <- not_true_iff_false, config_changed_true. split.
  - intros Hn l Ha. destruct (decide (l ∈ before_lines)); [done|].
    destruct Hn. eauto.
  - intros Hall (l & Ha & Hb). auto.
Qed.

(** C10. The normaliser drops exactly the raw lines whose first character
    is the comment marker and trims the others. A raw line made of leading
    whitespace and then the marker is kept; trimmed, it is a line of the
    normalised sequence that starts with the marker, so it counts in the
    before/after change test, while the diff never reports it. *)
Theorem indented_comment_survives raw ws rest
    (Hws : Py.all_space ws = true) (Hne : ws ≠ "")
    (Hraw : ws +:+ "!" +:+ rest ∈ Py.split_lines raw) :
  configuration_to_list raw
  = Py.strip <$> filter (fun line => ¬ comment_line line) (Py.split_lines raw)
  ∧ Py.strip (ws +:+ "!" +:+ rest) ∈ configuration_to_list raw
  ∧ comment_line (Py.strip (ws +:+ "!" +:+ rest))
  ∧ (∀ before_lines,
       Py.strip (ws +:+ "!" +:+ rest) ∉ before_lines →
       config_changed before_lines (configuration_to_list raw) = true)
  ∧ (∀ actual ignore,
       Py.strip (ws +:+ "!" +:+ rest)
       ∉ get_diff (configuration_to_list raw) actual ignore).
Proof.
  assert (Py.strip (ws +:+ "!" +:+ rest) ∈ configuration_to_list raw) as Hin.
  { rewrite configuration_to_list_filter. apply list_elem_of_fmap_2.
    apply list_elem_of_filter. split; [|done].
    by apply indented_not_comment. }
  split; [apply configuration_to_list_filter|].
  split; [done|].
  split; [by apply strip_indented_comment|].
  split.
  - intros before_lines Hb. apply config_changed_true. eauto.
  - intros actual ignore [_ (Hc & _)]%elem_of_get_diff.
    apply Hc. by apply strip_indented_comment.
Qed.

Lemma indented_comment_survives_witness :
  configuration_to_list
    ("ip x" +:+ String Py.newline EmptyString +:+ "  !note")
  = ["ip x"; "!note"]
  ∧ config_changed ["ip x"]
      (configuration_to_list
         ("ip x" +:+ String Py.newline EmptyString +:+ "  !note")) = true.
Proof.
  destruct (indented_comment_survives
              ("ip x" +:+ String Py.newline EmptyString +:+ "  !note")
              "  " "note") as (_ & _ & _ & Hch & _).
  - reflexivity.
  - discriminate.
  - vm_compute. right. left.
  - split; [vm_compute; reflexivity|].
    apply Hch. apply (bool_decide_eq_false_1 _). vm_compute. reflexivity.
Defined.

(** ** The steps of a run *)

Section Steps.

Context (D : Device) (H : Host) (p : Params).

Implicit Types (w : World D) (r : Result).

Lemma run_commands_trace c w out w' :
  run_commands D c w = (out, w') → trace w' = trace w ++ [RunCommands c out].
Proof.
  unfold run_commands. destruct (dev_run_command D c (device w)).
  by intros [= <- <-].
Qed.

Lemma load_loop_trace command_lines w u w' :
  for_each D command_lines
    (fun line => if negb (Py.startswith "!" line)
                 then bind D (run_commands D (Py.strip line))
                             (fun _ => ret D tt)
                 else ret D tt) w = (u, w') →
  ∃ evs, trace w' = trace w ++ evs
         ∧ runs_commands
             (Py.strip <$> filter (fun line => ¬ comment_line line)
                                  command_lines) evs.
Proof.
  revert w. induction command_lines as [|line cl IH]; intros w; simpl.
  - intros [= _ <-]. exists []. split; [by rewrite app_nil_r | constructor].
  - unfold bind at 1.
    destruct (Py.startswith "!" line) eqn:Hc; simpl.
    + intros Hrest. apply IH in Hrest as (evs & Htr & Hevs).
      exists evs. split; [done|].
      rewrite filter_cons_False; [done|].
      apply startswith_bang in Hc. tauto.
    + unfold bind at 1.
      destruct (run_commands D (Py.strip line) w) as [out w1] eqn:Hrun.
      apply run_commands_trace in Hrun. simpl.
      intros Hrest. apply IH in Hrest as (evs & Htr & Hevs).
      exists (RunCommands (Py.strip line) out :: evs). split.
      * rewrite Htr, Hrun, <- app_assoc. done.
      * rewrite filter_cons_True.
        -- rewrite fmap_cons. constructor; [eauto | done].
        -- intros Hx. apply startswith_bang in Hx. congruence.
Qed.

Lemma load_file_trace w ok w' :
  load_file D H p w = (ok, w') →
  if ok
  then ∃ evs, trace w' = trace w ++ evs
              ∧ runs_commands (file_commands H p) evs
  else w' = w ∧ Py.truthy_path (file_path p) = true
       ∧ host_readlines H (default "" (file_path p)) = None.
Proof.
  unfold load_file, file_commands.
  destruct (Py.truthy_path (file_path p)).
  2:{ intros [= <- <-]. exists []. split; [by rewrite app_nil_r | constructor]. }
  destruct (host_readlines H (default "" (file_path p))) as [cl|].
  2:{ by intros [= <- <-]. }
  unfold bind at 1.
  destruct (run_commands D "configure" w) as [o1 w1] eqn:H1.
  apply run_commands_trace in H1.
  unfold bind at 1.
  match goal with
  | |- context [for_each D cl ?b w1] =>
      destruct (for_each D cl b w1) as [u w2] eqn:H2
  end.
  apply load_loop_trace in H2 as (evs & H2 & Hevs).
  unfold bind at 1.
  destruct (run_commands D "exit" w2) as [o3 w3] eqn:H3.
  apply run_commands_trace in H3.
  intros [= <- <-].
  exists ([RunCommands "configure" o1] ++ evs ++ [RunCommands "exit" o3]).
  split.
  - rewrite H3, H2, H1, <- !app_assoc. done.
  - apply Forall2_app; [repeat constructor; eauto|].
    apply Forall2_app; [done | repeat constructor; eauto].
Qed.

Lemma backup_step_trace r w r' w' :
  backup_step D p r w = (r', w') →
  ∃ evs, trace w' = trace w ++ evs ∧ backup_trace p evs r r'.
Proof.
  unfold backup_step, backup_trace, diff_against_running.
  replace (diff_mode p && match diff_against p with
                          | Some startup => false
                          | None => false
                          end) with false
    by (destruct (diff_mode p), (diff_against p) as [[]|]; done).
  rewrite orb_false_r.
  destruct (backup p).
  - unfold bind at 1, get_config.
    destruct (dev_get_config D (defaults p) (device w)) as [c d'].
    unfold bind, emit, ret. simpl. intros [= <- <-]. simpl.
    exists [GetConfig (defaults p) c; Backup c]. split.
    + by rewrite <- app_assoc.
    + eauto.
  - intros [= <- <-]. exists []. by rewrite app_nil_r.
Qed.

Lemma split_lines_nonempty s : Py.split_lines s ≠ [].
Proof.
  destruct s as [|c s]; simpl; [done|].
  destruct (decide (c = Py.newline)); [done|].
  destruct (Py.split_lines s); done.
Qed.

Lemma truthy_false_items {A} (o : option (list A)) :
  Py.truthy o = false → Py.items o = [].
Proof. destruct o as [[|]|]; done. Qed.

Lemma build_commands_spliced :
  build_commands p (get_candidate_config H p) = spliced_commands H p.
Proof.
  unfold build_commands, spliced_commands.
  destruct (Py.truthy (before p)) eqn:Hb, (Py.truthy (after p)) eqn:Ha;
    repeat match goal with
      | Hx : Py.truthy _ = false |- _ =>
          apply truthy_false_items in Hx; rewrite Hx
      end; rewrite ?app_nil_r, <- ?app_assoc; done.
Qed.

Lemma spliced_commands_truthy : Py.truthy_list (spliced_commands H p) = true.
Proof.
  unfold spliced_commands.
  pose proof (split_lines_nonempty (get_candidate_config H p)) as Hne.
  destruct (Py.items (before p)); [|done].
  destruct (Py.split_lines (get_candidate_config H p)); done.
Qed.

Lemma candidate_step_trace r w r' w' :
  candidate_step D H p r w = (r', w') →
  trace w' = trace w ++ edit_events H p ∧ r' = candidate_result H p r.
Proof.
  unfold candidate_step, edit_events, candidate_result, submitted, built.
  destruct (Py.truthy (lines p)); simpl.
  2:{ intros [= <- <-]. by rewrite app_nil_r. }
  destruct (Py.truthy_str (get_candidate_config H p)); simpl.
  2:{ intros [= <- <-]. by rewrite app_nil_r. }
  rewrite build_commands_spliced, spliced_commands_truthy.
  destruct (check_mode p); simpl.
  - intros [= <- <-]. by rewrite app_nil_r.
  - unfold bind, edit_config_or_macro, ret. by intros [= <- <-].
Qed.

Lemma drift_step_trace running_raw w u w' :
  drift_step D p (configuration_to_list running_raw) w = (u, w') →
  trace w' = trace w ++ drift_events p running_raw.
Proof.
  unfold drift_step, drift_events, candidate_lines, diff_ignore_lines_list.
  destruct (get_diff _ _ _) as [|x l]; simpl.
  - intros [= _ <-]. by rewrite app_nil_r.
  - unfold warn, emit. by intros [= _ <-].
Qed.

Lemma save_config_trace w u w' :
  save_config D p w = (u, w') →
  ∃ evs, trace w' = trace w ++ evs ∧ persist_trace p evs.
Proof.
  unfold save_config, persist_trace. destruct (check_mode p); simpl.
  - unfold warn, emit. intros [= _ <-]. eauto.
  - unfold bind.
    destruct (run_commands D write_memory w) as [out w1] eqn:Hrun.
    apply run_commands_trace in Hrun. intros [= _ <-]. eauto.
Qed.

Lemma save_step_trace r w u w' :
  save_step D H p r w = (u, w') →
  ∃ evs, trace w' = trace w ++ evs ∧ save_trace H p (r_changed r) evs.
Proof.
  unfold save_step, save_trace. destruct (save_when p).
  - apply save_config_trace.
  - intros [= _ <-]. exists []. by rewrite app_nil_r.
  - unfold bind at 1.
    destruct (run_commands D "show running-config" w) as [o0 w0] eqn:H0.
    apply run_commands_trace in H0.
    unfold bind at 1.
    destruct (run_commands D "show startup-config" w0) as [o1 w1] eqn:H1.
    apply run_commands_trace in H1.
    destruct (String.eqb_spec (nc_sha1 H (diff_ignore_lines p) o0)
                              (nc_sha1 H (diff_ignore_lines p) o1))
      as [Heq|Hneq]; simpl.
    + intros [= _ <-]. exists [show_running o0; show_startup o1]. split.
      * rewrite H1, H0, <- app_assoc. done.
      * exists o0, o1, []. split; [done|]. by rewrite decide_True.
    + intros (evs & Htr & Hevs)%save_config_trace.
      exists ([show_running o0; show_startup o1] ++ evs). split.
      * rewrite Htr, H1, H0, <- !app_assoc. done.
      * exists o0, o1, evs. split; [done|]. by rewrite decide_False.
  - destruct (r_changed r).
    + apply save_config_trace.
    + intros [= _ <-]. exists []. by rewrite app_nil_r.
Qed.

End Steps.

(** ** The anatomy of a run *)

Section Anatomy.

Context (D : Device) (H : Host) (p : Params).

Lemma candidate_result_changed r :
  r_changed r = false → r_changed (candidate_result H p r) = submitted H p.
Proof.
  unfold candidate_result, submitted. destruct (built H p); [|done].
  destruct (check_mode p); done.
Qed.

Lemma intended_step_changed r : r_changed (intended_step p r) = r_changed r.
Proof.
  unfold intended_step. destruct (Py.truthy (intended_config p)); [|done].
  by destruct (negb _).
Qed.

Lemma backup_trace_changed evs r r' :
  backup_trace p evs r r' → r_changed r' = r_changed r.
Proof.
  unfold backup_trace. destruct (backup p).
  - by intros (c & _ & ->).
  - by intros [_ ->].
Qed.

(** A run ends in one of three ways: the arguments are refused before
    anything is done; the candidate file cannot be read, after the first
    snapshot alone; or the run completes, with the trace and the result of
    a completed run. *)
Lemma run_anatomy d out w :
  run D H p d = (out, w) →
  match out with
  | FailJson msg =>
      (check_args p = Some msg ∧ trace w = [] ∧ device w = d)
      ∨ (check_args p = None ∧ msg = "File Not Found!"
         ∧ Py.truthy_path (file_path p) = true
         ∧ host_readlines H (default "" (file_path p)) = None
         ∧ ∃ before_raw, trace w = [show_running before_raw])
  | ExitJson r =>
      check_args p = None
      ∧ ∃ o, completed_trace H p (trace w) o ∧ r = exit_result H p o
  end.
Proof.
  unfold run, main. destruct (check_args p) as [msg|] eqn:Hargs.
  { intros [= <- <-]. left. done. }
  unfold bind at 1.
  destruct (run_commands D "show running-config" _) as [before_raw w0] eqn:H0.
  apply run_commands_trace in H0. simpl in H0.
  unfold bind at 1.
  destruct (load_file D H p w0) as [ok w1] eqn:H1.
  apply load_file_trace in H1. destruct ok.
  2:{ destruct H1 as (-> & Hpath & Hread). intros [= <- <-]. right.
      repeat split; try done. eauto. }
  destruct H1 as (file_evs & H1 & Hfile).
  unfold bind at 1, reconcile.
  unfold bind at 1.
  destruct (backup_step D p result_init w1) as [r_b w2] eqn:H2.
  apply backup_step_trace in H2 as (backup_evs & H2 & Hbackup).
  unfold bind at 1.
  destruct (candidate_step D H p r_b w2) as [r_c w3] eqn:H3.
  apply candidate_step_trace in H3 as [H3 ->].
  unfold bind at 1.
  destruct (run_commands D "show running-config" w3) as [running_raw w4] eqn:H4.
  apply run_commands_trace in H4.
  unfold bind at 1.
  destruct (run_commands D "show startup-config" w4) as [startup_raw w5] eqn:H5.
  apply run_commands_trace in H5.
  unfold bind at 1.
  destruct (drift_step D p (configuration_to_list running_raw) w5)
    as [u6 w6] eqn:H6.
  apply drift_step_trace in H6.
  unfold bind at 1.
  destruct (save_step D H p _ w6) as [u7 w7] eqn:H7.
  apply save_step_trace in H7 as (save_evs & H7 & Hsave).
  rewrite intended_step_changed, candidate_result_changed in Hsave
    by (by rewrite (backup_trace_changed _ _ _ Hbackup)).
  unfold ret at 1. unfold final_step, bind.
  destruct (run_commands D "show running-config" w7) as [after_raw w8] eqn:H8.
  apply run_commands_trace in H8.
  unfold ret. intros [= <- <-]. split; [done|].
  exists {| o_before := before_raw; o_running := running_raw;
            o_startup := startup_raw; o_after := after_raw;
            o_file := file_evs; o_backup := backup_evs;
            o_backed_up := r_b; o_save := save_evs |}.
  split; [|done].
  split; [|done].
  simpl. rewrite H8, H7, H6, H5, H4, H3, H2, H1, H0.
  rewrite <- !app_assoc. done.
Qed.

End Anatomy.

(** ** Where the save command and the batch can occur *)

Lemma rstrip_no_trailing_space s : Py.ends_with_space (Py.rstrip s) = false.
Proof.
  induction s as [|c s IH]; [done|]. simpl.
  destruct (Py.rstrip s) as [|c' r'] eqn:Hr.
  - destruct (Py.isspace c) eqn:Hc; simpl; done.
  - simpl in *. done.
Qed.

Lemma strip_no_trailing_space s : Py.ends_with_space (Py.strip s) = false.
Proof. apply rstrip_no_trailing_space. Qed.

Lemma file_commands_no_trailing_space H p c :
  c ∈ file_commands H p → Py.ends_with_space c = false.
Proof.
  unfold file_commands.
  destruct (Py.truthy_path (file_path p)); [|by intros ?%elem_of_nil].
  destruct (host_readlines H _) as [cl|]; [|by intros ?%elem_of_nil].
  rewrite !elem_of_app, !list_elem_of_singleton, list_elem_of_fmap.
  intros [->|[(line & -> & _)| ->]];
    [done | apply strip_no_trailing_space | done].
Qed.

Lemma runs_commands_elem commands evs e :
  runs_commands commands evs → e ∈ evs →
  ∃ c out, c ∈ commands ∧ e = RunCommands c out.
Proof.
  induction 1 as [|c e' cs es [out ->] _ IH]; [by intros ?%elem_of_nil|].
  intros [->|Hin]%elem_of_cons.
  - exists c, out. split; [left | done].
  - destruct (IH Hin) as (c' & out' & Hc' & ->).
    exists c', out'. split; [by right | done].
Qed.

Lemma file_block_no_persist H p evs e :
  runs_commands (file_commands H p) evs → e ∈ evs → ¬ is_persist e.
Proof.
  intros Hruns Hin [out ->].
  destruct (runs_commands_elem _ _ _ Hruns Hin) as (c & out' & Hc & [= <- _]).
  apply file_commands_no_trailing_space in Hc. done.
Qed.

Lemma file_block_no_batch commands evs e :
  runs_commands commands evs → e ∈ evs → ¬ is_submit_batch e.
Proof.
  intros Hruns Hin [cmds ->].
  by destruct (runs_commands_elem _ _ _ Hruns Hin) as (c & out' & _ & [=]).
Qed.

Lemma backup_block_plain p evs r r' e :
  backup_trace p evs r r' → e ∈ evs → ¬ is_persist e ∧ ¬ is_submit_batch e.
Proof.
  unfold backup_trace. destruct (backup p).
  - intros (c & -> & _) Hin.
    apply elem_of_cons in Hin as [->|Hin];
      [|apply list_elem_of_singleton in Hin as ->];
      split; intros [? [=]].
  - intros [-> _] ?%elem_of_nil. done.
Qed.

Lemma edit_events_elem H p e :
  e ∈ edit_events H p →
  e = EditConfig (spliced_commands H p) ∧ submitted H p = true.
Proof.
  unfold edit_events. destruct (submitted H p).
  - by intros ->%list_elem_of_singleton.
  - by intros ?%elem_of_nil.
Qed.

Lemma drift_events_elem p running_raw e :
  e ∈ drift_events p running_raw → ∃ x, e = Warn x.
Proof.
  unfold drift_events. simpl. case_decide.
  - by intros ?%elem_of_nil.
  - intros ->%list_elem_of_singleton. eauto.
Qed.

Lemma persist_trace_persist p evs :
  persist_trace p evs →
  ((∃ e, e ∈ evs ∧ is_persist e) ↔ check_mode p = false).
Proof.
  unfold persist_trace. destruct (check_mode p).
  - intros ->. split; [|done].
    intros (e & ->%list_elem_of_singleton & [? [=]]).
  - intros [out ->]. split; [done|]. intros _.
    exists (RunCommands write_memory out). split; [left | by exists out].
Qed.

Lemma persist_trace_no_batch p evs e :
  persist_trace p evs → e ∈ evs → ¬ is_submit_batch e.
Proof.
  unfold persist_trace. destruct (check_mode p).
  - intros -> ->%list_elem_of_singleton [? [=]].
  - intros [out ->] ->%list_elem_of_singleton [? [=]].
Qed.

Lemma show_not_persist out : ¬ is_persist (show_running out)
                             ∧ ¬ is_persist (show_startup out).
Proof. split; intros [? [=]]. Qed.

Lemma save_trace_no_batch H p c evs e :
  save_trace H p c evs → e ∈ evs → ¬ is_submit_batch e.
Proof.
  unfold save_trace. destruct (save_when p).
  - apply persist_trace_no_batch.
  - by intros -> ?%elem_of_nil.
  - intros (o0 & o1 & evs' & -> & Hevs') Hin.
    apply elem_of_app in Hin as [Hin|Hin].
    + apply elem_of_cons in Hin as [->|Hin];
        [|apply list_elem_of_singleton in Hin as ->]; intros [? [=]].
    + case_decide; [subst evs'; by apply elem_of_nil in Hin|].
      by eapply persist_trace_no_batch.
  - destruct c; [apply persist_trace_no_batch | by intros -> ?%elem_of_nil].
Qed.

(** In a completed run the save command is issued by the save policy alone,
    and a batch by the candidate block alone. *)
Lemma completed_trace_persist H p tr o :
  completed_trace H p tr o →
  ((∃ e, e ∈ tr ∧ is_persist e) ↔ (∃ e, e ∈ o_save o ∧ is_persist e)).
Proof.
  intros (-> & Hfile & Hbackup & Hsave). split.
  - intros (e & Hin & Hp). exists e. split; [|done].
    rewrite !elem_of_app in Hin.
    destruct Hin as [Hin|[Hin|[Hin|[Hin|[Hin|[Hin|[Hin|Hin]]]]]]]; [| | | | | |done|].
    + apply list_elem_of_singleton in Hin as ->.
      by destruct (proj1 (show_not_persist (o_before o))).
    + by destruct (file_block_no_persist _ _ _ _ Hfile Hin).
    + by destruct (proj1 (backup_block_plain _ _ _ _ _ Hbackup Hin)).
    + apply edit_events_elem in Hin as [-> _]. by destruct Hp as [? [=]].
    + apply elem_of_cons in Hin as [->|Hin];
        [|apply list_elem_of_singleton in Hin as ->];
        by destruct Hp as [? [=]].
    + apply drift_events_elem in Hin as [x ->]. by destruct Hp as [? [=]].
    + apply list_elem_of_singleton in Hin as ->. by destruct Hp as [? [=]].
  - intros (e & Hin & Hp). exists e. split; [|done].
    rewrite !elem_of_app. eauto 10.
Qed.

Lemma completed_trace_batch H p tr o :
  completed_trace H p tr o →
  ∀ e, e ∈ tr ∧ is_submit_batch e
       ↔ e = EditConfig (spliced_commands H p) ∧ submitted H p = true.
Proof.
  intros (-> & Hfile & Hbackup & Hsave) e. split.
  - intros [Hin Hb]. rewrite !elem_of_app in Hin.
    destruct Hin as [Hin|[Hin|[Hin|[Hin|[Hin|[Hin|[Hin|Hin]]]]]]].
    + apply list_elem_of_singleton in Hin as ->. by destruct Hb as [? [=]].
    + by destruct (file_block_no_batch _ _ _ Hfile Hin).
    + by destruct (proj2 (backup_block_plain _ _ _ _ _ Hbackup Hin)).
    + by apply edit_events_elem.
    + apply elem_of_cons in Hin as [->|Hin];
        [|apply list_elem_of_singleton in Hin as ->];
        by destruct Hb as [? [=]].
    + apply drift_events_elem in Hin as [x ->]. by destruct Hb as [? [=]].
    + by destruct (save_trace_no_batch _ _ _ _ _ Hsave Hin).
    + apply list_elem_of_singleton in Hin as ->. by destruct Hb as [? [=]].
  - intros [-> Hs]. split; [|by eexists].
    rewrite !elem_of_app. right. right. right. left.
    unfold edit_events. rewrite Hs. left.
Qed.

(** ** The reported [changed] flag *)

(** C1, as the code has it. In a completed run the first and the last event
    are the two snapshots of the running configuration, and the reported
    [changed] is true exactly when some normalised line of the last
    snapshot is absent from the first one: the one-sided set difference
    after minus before. It depends on membership only, hence not on the
    order of the lines, and a run after which every line was already there
    before (lines were only removed) reports [changed = false]. *)
Theorem changed_is_after_minus_before D H p d r w
    (Hrun : run D H p d = (ExitJson r, w)) :
  ∃ o, completed_trace H p (trace w) o
       ∧ head (trace w) = Some (show_running (o_before o))
       ∧ last (trace w) = Some (show_running (o_after o))
       ∧ (r_changed r = true
          ↔ ∃ l, l ∈ configuration_to_list (o_after o)
                 ∧ l ∉ configuration_to_list (o_before o))
       ∧ ((∀ l, l ∈ configuration_to_list (o_after o)
                → l ∈ configuration_to_list (o_before o))
          → r_changed r = false)
       ∧ (∀ before_lines after_lines,
            before_lines ≡ₚ configuration_to_list (o_before o) →
            after_lines ≡ₚ configuration_to_list (o_after o) →
            r_changed r = config_changed before_lines after_lines).
Proof.
  apply run_anatomy in Hrun as (_ & o & Htr & ->).
  exists o. split; [done|].
  destruct Htr as (-> & _).
  split; [done|].
  split; [by rewrite !app_assoc, last_snoc|].
  split; [apply config_changed_true|].
  split; [apply config_changed_false|].
  intros bl al Hb Ha. simpl.
  destruct (config_changed bl al) eqn:Hc.
  - apply config_changed_true in Hc as (l & Hl & Hn).
    apply config_changed_true. exists l. by rewrite <- Ha, <- Hb.
  - apply config_changed_false. intros l Hl.
    rewrite config_changed_false in Hc. rewrite <- Hb. apply Hc.
    by rewrite Ha.
Qed.

Lemma changed_is_after_minus_before_witness :
  ∃ r w, Toy.run Toy.p_remove Toy.s_dns = (ExitJson r, w)
         ∧ r_changed r = false.
Proof.
  eassert (Toy.run Toy.p_remove Toy.s_dns = (ExitJson _, _)) as Hrun
    by (vm_compute; reflexivity).
  eexists _, _. split; [exact Hrun|].
  destruct (changed_is_after_minus_before _ _ _ _ _ _ Hrun)
    as (o & _ & Hhd & Hlast & _ & Hfalse & _).
  apply Hfalse. injection Hhd as <-. injection Hlast as <-.
  intros l Hl. vm_compute in Hl. vm_compute.
  apply list_elem_of_singleton in Hl as ->. right. left.
Defined.

(** Against C1 as stated: on the toy device the run that removes the DNS
    line leaves a running configuration whose line set differs from the one
    before (the symmetric difference holds the removed line), and reports
    [changed = false]. *)
Lemma removal_only_run_reports_unchanged :
  ∃ r w before_raw after_raw,
    Toy.run Toy.p_remove Toy.s_dns = (ExitJson r, w)
    ∧ head (trace w) = Some (show_running before_raw)
    ∧ last (trace w) = Some (show_running after_raw)
    ∧ configuration_to_list before_raw = [Toy.dns; Toy.hostname]
    ∧ configuration_to_list after_raw = [Toy.hostname]
    ∧ symmetric_difference (configuration_to_list before_raw)
                           (configuration_to_list after_raw) ≠ ∅
    ∧ ¬ (r_changed r = true
         ↔ symmetric_difference (configuration_to_list before_raw)
                                (configuration_to_list after_raw) ≠ ∅).
Proof.
  eexists _, _, _, _.
  split; [vm_compute; reflexivity|].
  split; [reflexivity|].
  split; [reflexivity|].
  split; [vm_compute; reflexivity|].
  split; [vm_compute; reflexivity|].
  assert (symmetric_difference
            (configuration_to_list (Toy.text [Toy.dns; Toy.hostname]))
            (configuration_to_list (Toy.text [Toy.hostname])) ≠ ∅) as Hne.
  { intros Hempty.
    assert (Toy.dns ∈ symmetric_difference
              (configuration_to_list (Toy.text [Toy.dns; Toy.hostname]))
              (configuration_to_list (Toy.text [Toy.hostname]))) as Hin.
    { unfold symmetric_difference.
      rewrite elem_of_union, !elem_of_difference, !elem_of_list_to_set.
      left. split.
      - vm_compute. left.
      - apply (bool_decide_eq_false_1 _). vm_compute. reflexivity. }
    rewrite Hempty in Hin. by apply not_elem_of_empty in Hin. }
  split; [exact Hne|].
  intros [_ Hback]. specialize (Hback Hne). discriminate Hback.
Qed.

(** ** The save policy *)




(** C5. When the arguments are accepted and a file path is given whose
    file cannot be opened, the run fails with the message
    "File Not Found!", and all it has done by then is the first read of the
    running configuration: no command was sent in configuration mode, no
    batch, no save. *)
Theorem missing_file_aborts_before_mutation D H p d
    (Hargs : check_args p = None)
    (Hpath : Py.truthy_path (file_path p) = true)
    (Hread : host_readlines H (default "" (file_path p)) = None) :
  ∃ before_raw w,
    run D H p d = (FailJson "File Not Found!", w)
    ∧ trace w = [show_running before_raw]
    ∧ (∀ e, e ∈ trace w → is_fetch e ∧ ¬ is_submit_batch e ∧ ¬ is_persist e).
Proof.
  unfold run, main. rewrite Hargs. unfold bind at 1.
  destruct (run_commands D "show running-config" _) as [before_raw w0] eqn:H0.
  apply run_commands_trace in H0. simpl in H0.
  unfold bind, load_file. rewrite Hpath, Hread. unfold ret.
  exists before_raw, w0. split; [done|]. split; [done|].
  rewrite H0. intros e ->%list_elem_of_singleton.
  split; [exists before_raw; by left|].
  split; intros [? [=]].
Qed.

Lemma missing_file_aborts_before_mutation_witness :
  ∃ before_raw w,
    Toy.run Toy.p_missing_file Toy.s_dns = (FailJson "File Not Found!", w)
    ∧ trace w = [show_running before_raw].
Proof.
  destruct (missing_file_aborts_before_mutation Toy.device Toy.host
              Toy.p_missing_file Toy.s_dns)
    as (before_raw & w & Hrun & Htr & _);
    [reflexivity | reflexivity | reflexivity |].
  exists before_raw, w. done.
Defined.

(** ** What the result reports *)

Lemma strip_loop acc (l : list string) :
  foldl (fun acc line => acc ++ [Py.strip line]) acc l
  = acc ++ (Py.strip <$> l).
Proof.
  revert acc. induction l as [|x l IH]; intros acc; simpl.
  - by rewrite app_nil_r.
  - by rewrite IH, <- app_assoc.
Qed.

Lemma get_list_from_params_strip o :
  get_list_from_params o = Py.strip <$> Py.items o.
Proof.
  unfold get_list_from_params. destruct (Py.truthy o) eqn:Ho.
  - by rewrite strip_loop.
  - by rewrite (truthy_false_items _ Ho).
Qed.

Lemma get_intended_config_strip p :
  get_intended_config p = Py.strip <$> Py.items (intended_config p).
Proof. unfold get_intended_config. by rewrite strip_loop. Qed.

Lemma run_completes D H p d :
  check_args p = None →
  (Py.truthy_path (file_path p) = true →
   is_Some (host_readlines H (default "" (file_path p)))) →
  ∃ r w, run D H p d = (ExitJson r, w).
Proof.
  intros Hargs Hfile. destruct (run D H p d) as [[r|msg] w] eqn:Hrun; [eauto|].
  apply run_anatomy in Hrun as [(Hx & _)|(_ & _ & Hpath & Hread & _)].
  - congruence.
  - apply Hfile in Hpath as [cl Hcl]. congruence.
Qed.

(** The keys written before the startup diff survive to the end. *)
Lemma exit_result_keys H p o :
  backup_trace p (o_backup o) result_init (o_backed_up o) →
  r_success (exit_result H p o)
  = r_success (intended_step p result_init)
  ∧ r_failed_diff_lines_between_intended_candidate (exit_result H p o)
    = r_failed_diff_lines_between_intended_candidate
        (intended_step p result_init)
  ∧ r_commands (exit_result H p o)
    = if built H p then Some (spliced_commands H p) else None.
Proof.
  intros Hb.
  assert (r_success (o_backed_up o) = None
          ∧ r_failed_diff_lines_between_intended_candidate (o_backed_up o)
            = None
          ∧ r_commands (o_backed_up o) = None) as (Hs & Hf & Hc).
  { unfold backup_trace in Hb. destruct (backup p).
    - by destruct Hb as (c & _ & ->).
    - by destruct Hb as [_ ->]. }
  unfold exit_result, startup_diff_step, intended_step, candidate_result.
  destruct (bool_decide _), (Py.truthy (intended_config p)),
    (built H p), (check_mode p);
    repeat match goal with |- context [negb ?b] => destruct (negb b) end;
    simpl; rewrite ?Hs, ?Hf, ?Hc; done.
Qed.

(** C8, as the code has it. When the run gets past the argument check and
    the candidate file and an intended configuration is supplied, the run
    completes, and its result has [success = false] with the diff of the
    intended lines against the candidate lines when that diff is not empty,
    and [success = true] with no mismatch list when it is empty. The
    candidate lines of this check are the trimmed explicit lines of the
    parameter [lines], whatever is sent to the device: parents, the before
    and the after block take no part, and a dry run reports the same. *)
Theorem intended_mismatch_reported D H p d
    (Hargs : check_args p = None)
    (Hfile : Py.truthy_path (file_path p) = true →
             is_Some (host_readlines H (default "" (file_path p))))
    (Hint : Py.truthy (intended_config p) = true) :
  ∃ r w,
    run D H p d = (ExitJson r, w)
    ∧ let found_diff :=
        get_diff (Py.strip <$> Py.items (intended_config p))
                 (Py.strip <$> Py.items (lines p))
                 (Py.strip <$> Py.items (diff_ignore_lines p)) in
      found_diff = get_diff (get_intended_config p)
                            (get_list_from_params (lines p))
                            (get_list_from_params (diff_ignore_lines p))
      ∧ (found_diff ≠ [] →
           r_success r = Some false
           ∧ r_failed_diff_lines_between_intended_candidate r
             = Some found_diff)
      ∧ (found_diff = [] →
           r_success r = Some true
           ∧ r_failed_diff_lines_between_intended_candidate r = None).
Proof.
  destruct (run_completes D H p d Hargs Hfile) as (r & w & Hrun).
  exists r, w. split; [done|].
  apply run_anatomy in Hrun as (_ & o & (_ & _ & Hb & _) & ->).
  destruct (exit_result_keys H p o Hb) as (-> & -> & _).
  simpl. rewrite get_intended_config_strip, !get_list_from_params_strip.
  split; [done|].
  unfold intended_step. rewrite Hint.
  unfold candidate_lines, diff_ignore_lines_list.
  rewrite get_intended_config_strip, !get_list_from_params_strip.
  destruct (get_diff _ _ _) as [|x l]; simpl; repeat split; done.
Qed.

Lemma intended_mismatch_reported_witness :
  ∃ r w, Toy.run Toy.p_intended Toy.s_dns = (ExitJson r, w)
         ∧ r_success r = Some false
         ∧ r_failed_diff_lines_between_intended_candidate r = Some ["b"].
Proof.
  destruct (intended_mismatch_reported Toy.device Toy.host Toy.p_intended
              Toy.s_dns) as (r & w & Hrun & _ & Hfail & _);
    [reflexivity | discriminate | reflexivity |].
  exists r, w. split; [exact Hrun|].
  apply Hfail. vm_compute. discriminate.
Defined.

(** ** Further properties of the diff engine *)

Lemma reported_mono actual actual' ignore ignore' L :
  (∀ x, x ∈ actual → x ∈ actual') → (∀ x, x ∈ ignore → x ∈ ignore') →
  reported actual' ignore' L → reported actual ignore L.
Proof. unfold reported. intros Ha Hi (? & ? & ? & ?). auto 10. Qed.

(** X1. A diff against a sequence that has every line of [expected] is
    empty; in particular the diff of a sequence against itself. *)
Theorem get_diff_all_present expected actual ignore
    (Hall : ∀ L, L ∈ expected → L ∈ actual) :
  get_diff expected actual ignore = []
  ∧ get_diff expected expected ignore = [].
Proof.
  split; rewrite get_diff_filter; apply filter_none;
    intros L HL (_ & _ & _ & Hn); auto.
Qed.

Lemma get_diff_all_present_witness :
  get_diff ["ip x"; "port 80 tcp"; "ip x"] ["port 80 tcp"; "ip x"] [] = [].
Proof.
  apply (get_diff_all_present ["ip x"; "port 80 tcp"; "ip x"]
           ["port 80 tcp"; "ip x"] []).
  intros L HL. apply (bool_decide_unpack _).
  repeat (apply elem_of_cons in HL as [->|HL]; [vm_compute; exact I|]).
  by apply elem_of_nil in HL.
Defined.

(** X2. Diffing the diff again, against the same sequence and ignore list,
    changes nothing; and no reported line is a member of [actual] or a
    comment. *)
Theorem get_diff_idempotent expected actual ignore :
  get_diff (get_diff expected actual ignore) actual ignore
  = get_diff expected actual ignore
  ∧ ∀ L, L ∈ get_diff expected actual ignore →
         L ∈ expected ∧ (L ∉ actual) ∧ ¬ comment_line L.
Proof.
  split.
  - rewrite !get_diff_filter, list_filter_filter.
    apply list_filter_iff. intros L. tauto.
  - intros L [HL (Hc & _ & _ & Ha)]%elem_of_get_diff. done.
Qed.

(** X3. The diff looks at [actual] and at the ignore list as sets: two
    sequences with the same members, in any order and with any repetition,
    give the same diff. *)
Theorem get_diff_set_invariant expected actual actual' ignore ignore'
    (Ha : ∀ x, x ∈ actual ↔ x ∈ actual')
    (Hi : ∀ x, x ∈ ignore ↔ x ∈ ignore') :
  get_diff expected actual ignore = get_diff expected actual' ignore'.
Proof.
  rewrite !get_diff_filter. apply list_filter_iff. intros L.
  split; apply reported_mono; intros x; first [apply Ha | apply Hi].
Qed.

Lemma get_diff_set_invariant_witness :
  get_diff ["a"; "b"; "c"] ["b"; "a"; "b"] ["c"; "c"]
  = get_diff ["a"; "b"; "c"] ["a"; "b"] ["c"].
Proof.
  apply get_diff_set_invariant; intros x;
    rewrite !elem_of_cons, !elem_of_nil; tauto.
Defined.

(** X4. Adding lines to [actual] or to the ignore list can only remove
    lines from the diff: the new diff is a subsequence of the old one,
    which is itself a subsequence of [expected]. *)
Theorem get_diff_antitone expected actual actual' ignore ignore'
    (Ha : ∀ x, x ∈ actual → x ∈ actual')
    (Hi : ∀ x, x ∈ ignore → x ∈ ignore') :
  get_diff expected actual' ignore' `sublist_of` get_diff expected actual ignore
  ∧ get_diff expected actual ignore `sublist_of` expected.
Proof.
  split.
  - assert (get_diff expected actual' ignore'
            = filter (reported actual' ignore')
                     (get_diff expected actual ignore)) as ->.
    { rewrite !get_diff_filter, list_filter_filter.
      apply list_filter_iff. intros L. split; [|tauto].
      intros HL. split; [done|]. by eapply reported_mono. }
    apply sublist_filter.
  - rewrite get_diff_filter. apply sublist_filter.
Qed.

Lemma get_diff_antitone_witness :
  get_diff ["a"; "b"; "c"] ["a"; "b"] ["c"] `sublist_of`
    get_diff ["a"; "b"; "c"] ["a"] [].
Proof.
  apply get_diff_antitone; intros x;
    rewrite !elem_of_cons, !elem_of_nil; tauto.
Defined.

(** X5. When the diff of the last snapshot against the first one is not
    empty, the change test that ends the run answers changed. *)
Theorem diff_implies_changed before_lines after_lines ignore
    (Hdiff : get_diff after_lines before_lines ignore ≠ []) :
  config_changed before_lines after_lines = true.
Proof.
  apply config_changed_true.
  destruct (get_diff after_lines before_lines ignore) as [|L l] eqn:Hd;
    [done|].
  assert (L ∈ get_diff after_lines before_lines ignore) as HL
    by (rewrite Hd; left).
  apply elem_of_get_diff in HL as [HL (_ & _ & _ & Hn)]. eauto.
Qed.

Lemma diff_implies_changed_witness :
  config_changed ["hostname acos"] ["hostname acos"; "port 80 tcp"] = true.
Proof.
  apply (diff_implies_changed _ _ []). vm_compute. discriminate.
Defined.

(** ** Further properties of the normaliser *)

Lemma lstrip_head s :
  Py.lstrip s = "" ∨ ∃ c r, Py.lstrip s = String c r ∧ Py.isspace c = false.
Proof.
  induction s as [|c s IH]; simpl; [by left|].
  destruct (Py.isspace c) eqn:Hc; [done|]. right. eauto.
Qed.

Lemma rstrip_idempotent s : Py.rstrip (Py.rstrip s) = Py.rstrip s.
Proof.
  induction s as [|c s IH]; [done|]. simpl.
  destruct (Py.rstrip s) as [|c' r'] eqn:Hr.
  - destruct (Py.isspace c) eqn:Hc; simpl; [done|]. by rewrite Hc.
  - change (Py.rstrip (String c (String c' r')))
      with (match Py.rstrip (String c' r') with
            | EmptyString =>
                if Py.isspace c then EmptyString else String c EmptyString
            | r => String c r
            end).
    by rewrite IH.
Qed.

Lemma strip_idempotent s : Py.strip (Py.strip s) = Py.strip s.
Proof.
  unfold Py.strip. destruct (lstrip_head s) as [->|(c & r & -> & Hc)]; [done|].
  destruct (rstrip_keeps_head c r Hc) as [r' Hr']. rewrite Hr'.
  simpl Py.lstrip. rewrite Hc, <- Hr'. apply rstrip_idempotent.
Qed.

Lemma split_lines_no_newline x :
  no_newline x = true → Py.split_lines x = [x].
Proof.
  induction x as [|c x IH]; simpl; [done|].
  intros [Hc Hx]%andb_true_iff. apply negb_true_iff, bool_decide_eq_false in Hc.
  rewrite decide_False by done. by rewrite IH.
Qed.

Lemma split_lines_app x rest :
  no_newline x = true →
  Py.split_lines (x +:+ String Py.newline rest) = x :: Py.split_lines rest.
Proof.
  induction x as [|c x IH]; simpl.
  - done.
  - intros [Hc Hx]%andb_true_iff.
    apply negb_true_iff, bool_decide_eq_false in Hc.
    rewrite decide_False by done. by rewrite IH.
Qed.

Lemma split_lines_join l :
  l ≠ [] → Forall (fun x => no_newline x = true) l →
  Py.split_lines (join_lines l) = l.
Proof.
  intros Hne Hall. induction Hall as [|x l Hx Hall IH]; [done|].
  destruct l as [|y l].
  - by apply split_lines_no_newline.
  - change (join_lines (x :: y :: l))
      with (x +:+ String Py.newline (join_lines (y :: l))).
    rewrite split_lines_app by done. f_equal. by apply IH.
Qed.

Lemma split_lines_pieces s x : x ∈ Py.split_lines s → no_newline x = true.
Proof.
  revert x. induction s as [|c s IH]; simpl; intros x.
  - by intros ->%list_elem_of_singleton.
  - destruct (decide (c = Py.newline)) as [->|Hc].
    + intros [->|Hx]%elem_of_cons; [done | by apply IH].
    + destruct (Py.split_lines s) as [|h t] eqn:Hs.
      * intros ->%list_elem_of_singleton. simpl.
        by rewrite bool_decide_eq_false_2.
      * intros [->|Hx]%elem_of_cons.
        -- simpl. rewrite bool_decide_eq_false_2 by done. simpl.
           apply IH. left.
        -- apply IH. by right.
Qed.

Lemma lstrip_no_newline x : no_newline x = true → no_newline (Py.lstrip x) = true.
Proof.
  induction x as [|c x IH]; simpl; [done|].
  intros Hx. pose proof Hx as [_ Hx']%andb_true_iff.
  destruct (Py.isspace c); [by apply IH | done].
Qed.

Lemma rstrip_no_newline x : no_newline x = true → no_newline (Py.rstrip x) = true.
Proof.
  induction x as [|c x IH]; simpl; [done|].
  intros [Hc Hx]%andb_true_iff. specialize (IH Hx).
  destruct (Py.rstrip x) as [|c' r'].
  - destruct (Py.isspace c); simpl; [done | by rewrite Hc].
  - simpl in *. by rewrite Hc, IH.
Qed.

(** X6. Every line of a normalised configuration is trimmed (trimming it
    again changes nothing) and holds no line break; there is one line per
    raw line that does not start with the comment marker, so a text
    without such lines is never normalised to the empty sequence. *)
Theorem normalised_lines_trimmed raw :
  (∀ l, l ∈ configuration_to_list raw → trimmed l ∧ no_newline l = true)
  ∧ length (configuration_to_list raw)
    = length (filter (fun line => ¬ comment_line line) (Py.split_lines raw))
  ∧ ((∀ line, line ∈ Py.split_lines raw → ¬ comment_line line) →
     configuration_to_list raw ≠ []).
Proof.
  rewrite configuration_to_list_filter. split; [|split].
  - intros l (x & -> & Hx)%list_elem_of_fmap.
    apply list_elem_of_filter in Hx as [_ Hx]. split.
    + apply strip_idempotent.
    + apply rstrip_no_newline, lstrip_no_newline.
      by eapply split_lines_pieces.
  - by rewrite length_fmap.
  - intros Hnone Hnil.
    pose proof (split_lines_nonempty raw) as Hne.
    destruct (Py.split_lines raw) as [|x t]; [done|].
    rewrite filter_cons_True in Hnil by (apply Hnone; left). done.
Qed.

Lemma normalised_lines_trimmed_witness :
  configuration_to_list "" ≠ [].
Proof.
  apply normalised_lines_trimmed.
  intros line ->%list_elem_of_singleton. simpl. tauto.
Defined.

(** X7. Round trip with the line break: the lines of a joined text are the
    lines that were joined, so normalising the text of a sequence of lines
    gives back its lines that are no comments, trimmed; a sequence of
    trimmed lines that are no comments comes back as it is. *)
Theorem normalise_joined_lines l
    (Hne : l ≠ [])
    (Hnl : Forall (fun x => no_newline x = true) l) :
  Py.split_lines (join_lines l) = l
  ∧ configuration_to_list (join_lines l)
    = (Py.strip <$> filter (fun line => ¬ comment_line line) l)
  ∧ (Forall (fun x => trimmed x ∧ ¬ comment_line x) l →
     configuration_to_list (join_lines l) = l).
Proof.
  pose proof (split_lines_join l Hne Hnl) as Hsplit.
  split; [done|].
  rewrite configuration_to_list_filter, Hsplit. split; [done|].
  intros Hall. clear Hne Hnl Hsplit.
  induction Hall as [|x l [Hx Hc] Hall IH]; [done|].
  rewrite filter_cons_True by done. rewrite fmap_cons, IH. by rewrite Hx.
Qed.

Lemma normalise_joined_lines_witness :
  configuration_to_list (join_lines ["hostname acos"; "port 80 tcp"])
  = ["hostname acos"; "port 80 tcp"].
Proof.
  destruct (normalise_joined_lines ["hostname acos"; "port 80 tcp"])
    as (_ & _ & Hid).
  - discriminate.
  - repeat constructor.
  - apply Hid. repeat constructor; simpl; discriminate.
Defined.

(** ** Further properties of a run *)

Lemma run_refused D H p d msg :
  check_args p = Some msg →
  run D H p d = (FailJson msg, {| device := d; trace := [] |}).
Proof. intros Hargs. unfold run, main. by rewrite Hargs. Qed.

(** A run that fails has done nothing, or has only read the running
    configuration once. *)
Lemma failed_run_trace D H p d msg w :
  run D H p d = (FailJson msg, w) →
  trace w = [] ∨ ∃ before_raw, trace w = [show_running before_raw].
Proof.
  intros Hrun. apply run_anatomy in Hrun as [(_ & -> & _)|(_ & _ & _ & _ & Hw)];
    [by left | by right].
Qed.

(** The events of a completed run before the save policy. *)
Lemma completed_trace_before_save H p tr o :
  completed_trace H p tr o →
  ∃ pre, tr = pre ++ o_save o ++ [show_running (o_after o)]
         ∧ pre = [show_running (o_before o)] ++ o_file o ++ o_backup o
                 ++ edit_events H p
                 ++ [show_running (o_running o); show_startup (o_startup o)]
                 ++ drift_events p (o_running o)
         ∧ ∀ e, e ∈ pre → ¬ is_persist e.
Proof.
  intros (-> & Hfile & Hbackup & Hsave). eexists. split; [|split; [done|]].
  { by rewrite <- !app_assoc. }
  intros e Hin Hp. rewrite !elem_of_app in Hin.
  destruct Hin as [Hin|[Hin|[Hin|[Hin|[Hin|Hin]]]]].
  - apply list_elem_of_singleton in Hin as ->. by destruct Hp as [? [=]].
  - by destruct (file_block_no_persist _ _ _ _ Hfile Hin).
  - by destruct (proj1 (backup_block_plain _ _ _ _ _ Hbackup Hin)).
  - apply edit_events_elem in Hin as [-> _]. by destruct Hp as [? [=]].
  - apply elem_of_cons in Hin as [->|Hin];
      [|apply list_elem_of_singleton in Hin as ->]; by destruct Hp as [? [=]].
  - apply drift_events_elem in Hin as [x ->]. by destruct Hp as [? [=]].
Qed.

Lemma exit_result_more H p o :
  backup_trace p (o_backup o) result_init (o_backed_up o) →
  r_updates (exit_result H p o) = r_commands (exit_result H p o)
  ∧ r_backup (exit_result H p o) = r_backup (o_backed_up o)
  ∧ (diff_against p = None →
     r_diff_against_found (exit_result H p o) = None
     ∧ r_startup_diff (exit_result H p o) = None).
Proof.
  intros Hb.
  assert (r_updates (o_backed_up o) = None
          ∧ r_commands (o_backed_up o) = None
          ∧ r_diff_against_found (o_backed_up o) = None
          ∧ r_startup_diff (o_backed_up o) = None) as (Hu & Hc & Hf & Hs).
  { unfold backup_trace in Hb. destruct (backup p).
    - by destruct Hb as (c & _ & ->).
    - by destruct Hb as [_ ->]. }
  unfold exit_result, startup_diff_step, intended_step, candidate_result.
  split; [|split].
  - destruct (bool_decide _), (Py.truthy (intended_config p)),
      (built H p), (check_mode p);
      repeat match goal with |- context [negb ?b] => destruct (negb b) end;
      simpl; rewrite ?Hu, ?Hc; done.
  - destruct (bool_decide _), (Py.truthy (intended_config p)),
      (built H p), (check_mode p);
      repeat match goal with |- context [negb ?b] => destruct (negb b) end;
      simpl; done.
  - intros Hda. rewrite bool_decide_eq_false_2 by (by rewrite Hda).
    destruct (Py.truthy (intended_config p)), (built H p), (check_mode p);
      repeat match goal with |- context [negb ?b] => destruct (negb b) end;
      simpl; rewrite ?Hf, ?Hs; done.
Qed.

(** X9. A multiline delimiter that is not empty and not of exactly two
    characters (one character included) is refused: the run fails with the
    message of [check_args] before the device is touched at all. *)
Theorem bad_delimiter_refused D H p d
    (Hne : multiline_delimiter p ≠ "")
    (Hlen : String.length (multiline_delimiter p) ≠ 2) :
  run D H p d
  = (FailJson "multiline_delimiter value can only be oneor two characters",
     {| device := d; trace := [] |}).
Proof.
  apply run_refused. unfold check_args.
  destruct (multiline_delimiter p) as [|c s]; [done|]. simpl Py.truthy_str.
  cbv iota. apply Nat.eqb_neq in Hlen. by rewrite Hlen.
Qed.

Lemma bad_delimiter_refused_witness :
  Toy.run Inputs.p_bad_delimiter Toy.s_dns
  = (FailJson "multiline_delimiter value can only be oneor two characters",
     Build_World Toy.device Toy.s_dns []).
Proof.
  apply (bad_delimiter_refused Toy.device Toy.host Inputs.p_bad_delimiter).
  - discriminate.
  - simpl. lia.
Defined.

Lemma save_trace_dry_run H p c evs e :
  check_mode p = true → save_trace H p c evs → e ∈ evs → ¬ is_persist e.
Proof.
  intros Hcm Hst Hin Hp.
  assert (∀ evs', persist_trace p evs' → e ∈ evs' → False) as Hpt.
  { intros evs' Hpt Hin'. apply persist_trace_persist in Hpt.
    assert (check_mode p = false) by (apply Hpt; eauto). congruence. }
  unfold save_trace in Hst. destruct (save_when p).
  - eauto.
  - subst. by apply elem_of_nil in Hin.
  - destruct Hst as (o0 & o1 & evs' & -> & Hevs').
    apply elem_of_app in Hin as [Hin|Hin].
    + apply elem_of_cons in Hin as [->|Hin];
        [|apply list_elem_of_singleton in Hin as ->]; by destruct Hp as [? [=]].
    + case_decide; [subst; by apply elem_of_nil in Hin | eauto].
  - destruct c; [eauto | subst; by apply elem_of_nil in Hin].
Qed.

(** X12. When a candidate file is given and can be read, a completed run
    sends, right after the first snapshot: the command that enters
    configuration mode, then each line of the file that does not start with
    the comment marker, trimmed and in file order, each as one command,
    then the command that leaves configuration mode. The dry-run flag is
    not consulted: the same commands are sent in a dry run. *)
Theorem file_commands_sent D H p d r w command_lines
    (Hpath : Py.truthy_path (file_path p) = true)
    (Hread : host_readlines H (default "" (file_path p)) = Some command_lines)
    (Hrun : run D H p d = (ExitJson r, w)) :
  ∃ before_raw evs rest,
    trace w = [show_running before_raw] ++ evs ++ rest
    ∧ runs_commands
        (["configure"]
         ++ (Py.strip <$> filter (fun line => ¬ comment_line line)
                                 command_lines)
         ++ ["exit"]) evs.
Proof.
  apply run_anatomy in Hrun as (_ & o & (Htr & Hfile & _) & _).
  unfold file_commands in Hfile. rewrite Hpath, Hread in Hfile.
  eexists (o_before o), (o_file o), _. split; [exact Htr | done].
Qed.

Lemma file_commands_sent_witness :
  ∃ r w before_raw evs rest,
    Toy.run Inputs.p_dry_run Toy.s_dns = (ExitJson r, w)
    ∧ trace w = [show_running before_raw] ++ evs ++ rest
    ∧ runs_commands ["configure"; "slb server s1 10.0.0.1";
                     "no ip dns primary 8.8.4.7"; "exit"] evs.
Proof.
  eassert (Toy.run Inputs.p_dry_run Toy.s_dns = (ExitJson _, _)) as Hrun
    by (vm_compute; reflexivity).
  destruct (file_commands_sent Toy.device Toy.host Inputs.p_dry_run Toy.s_dns
              _ _ _ eq_refl eq_refl Hrun) as (b & evs & rest & Htr & Hevs).
  eexists _, _, b, evs, rest. split; [exact Hrun|]. split; [exact Htr|].
  exact Hevs.
Defined.

(** X15. A completed run reports the command list under [commands] and the
    same list under [updates] exactly when explicit lines were given and
    their serialisation is not empty; a dry run reports it too, though it
    sends nothing. *)
Theorem commands_reported D H p d r w
    (Hrun : run D H p d = (ExitJson r, w)) :
  r_updates r = r_commands r
  ∧ r_commands r
    = (if Py.truthy (lines p) && Py.truthy_str (get_candidate_config H p)
       then Some (Py.items (before p)
                  ++ Py.split_lines (get_candidate_config H p)
                  ++ Py.items (after p))
       else None)
  ∧ (check_mode p = true → ∀ e, e ∈ trace w → ¬ is_submit_batch e).
Proof.
  apply run_anatomy in Hrun as (_ & o & Htr & ->).
  pose proof Htr as (_ & _ & Hb & _).
  destruct (exit_result_more H p o Hb) as (-> & _ & _).
  destruct (exit_result_keys H p o Hb) as (_ & _ & ->).
  split; [done|]. split; [done|].
  intros Hcm e Hin Hbatch.
  assert (e ∈ trace w ∧ is_submit_batch e) as He by done.
  apply (completed_trace_batch _ _ _ _ Htr) in He as [_ Hs].
  unfold submitted in Hs. rewrite Hcm, andb_false_r in Hs. done.
Qed.

Lemma commands_reported_witness :
  ∃ r w, Toy.run Inputs.p_dry_run Toy.s_dns = (ExitJson r, w)
         ∧ r_updates r = Some ["hostname acos"].
Proof.
  eassert (Toy.run Inputs.p_dry_run Toy.s_dns = (ExitJson _, _)) as Hrun
    by (vm_compute; reflexivity).
  eexists _, _. split; [exact Hrun|].
  destruct (commands_reported Toy.device Toy.host Inputs.p_dry_run Toy.s_dns
              _ _ Hrun) as (Hu & Hc & _).
  rewrite Hu, Hc. vm_compute. reflexivity.
Defined.

(** X16. Without explicit lines nothing is built: a before or an after
    block alone is never sent to the device, and no command list is
    reported. *)
Theorem before_after_alone_not_sent D H p d r w
    (Hlines : Py.truthy (lines p) = false)
    (Hrun : run D H p d = (ExitJson r, w)) :
  (∀ e, e ∈ trace w → ¬ is_submit_batch e)
  ∧ r_commands r = None ∧ r_updates r = None.
Proof.
  apply run_anatomy in Hrun as (_ & o & Htr & ->).
  pose proof Htr as (_ & _ & Hb & _).
  destruct (exit_result_more H p o Hb) as (-> & _ & _).
  destruct (exit_result_keys H p o Hb) as (_ & _ & ->).
  unfold built. rewrite Hlines. split; [|done].
  intros e Hin Hbatch.
  assert (e ∈ trace w ∧ is_submit_batch e) as He by done.
  apply (completed_trace_batch _ _ _ _ Htr) in He as [_ Hs].
  unfold submitted, built in Hs. by rewrite Hlines in Hs.
Qed.

Lemma before_after_alone_not_sent_witness :
  ∃ r w, Toy.run Inputs.p_before_only Toy.s_dns = (ExitJson r, w)
         ∧ r_commands r = None.
Proof.
  eassert (Toy.run Inputs.p_before_only Toy.s_dns = (ExitJson _, _)) as Hrun
    by (vm_compute; reflexivity).
  eexists _, _. split; [exact Hrun|].
  apply (before_after_alone_not_sent Toy.device Toy.host Inputs.p_before_only
           Toy.s_dns _ _ eq_refl Hrun).
Defined.

(** X17. The drift warning: a completed run warns exactly when the diff of
    the trimmed explicit lines against the second snapshot of the running
    configuration is not empty, and then once, with that diff; the run
    completes all the same. The parents and the before and after blocks
    take no part in it, and without explicit lines there is no warning. *)
Theorem drift_warning_iff D H p d r w
    (Hrun : run D H p d = (ExitJson r, w)) :
  ∃ o, completed_trace H p (trace w) o
    ∧ let difference :=
        get_diff (Py.strip <$> Py.items (lines p))
                 (configuration_to_list (o_running o))
                 (Py.strip <$> Py.items (diff_ignore_lines p)) in
      (∀ x, Warn (CouldNotExecute x) ∈ trace w
            ↔ x = difference ∧ difference ≠ [])
      ∧ (Py.truthy (lines p) = false →
         ∀ e, e ∈ trace w → ¬ is_drift_warning e).
Proof.
  apply run_anatomy in Hrun as (_ & o & Htr & _).
  exists o. split; [done|]. cbv zeta.
  rewrite <- !get_list_from_params_strip.
  assert (∀ x, Warn (CouldNotExecute x) ∈ trace w
               ↔ Warn (CouldNotExecute x) ∈ drift_events p (o_running o))
    as Hloc.
  { intros x. destruct Htr as (-> & Hfile & Hbackup & Hsave).
    rewrite !elem_of_app. split; [|tauto].
    intros [Hin|[Hin|[Hin|[Hin|[Hin|[Hin|[Hin|Hin]]]]]]]; [| | | | |done| |].
    - by apply list_elem_of_singleton in Hin.
    - by destruct (runs_commands_elem _ _ _ Hfile Hin) as (? & ? & _ & [=]).
    - unfold backup_trace in Hbackup. destruct (backup p).
      + destruct Hbackup as (c & Heq & _). rewrite Heq in Hin.
        apply elem_of_cons in Hin as [[=]|Hin].
        by apply list_elem_of_singleton in Hin.
      + destruct Hbackup as [Heq _]. rewrite Heq in Hin.
        by apply elem_of_nil in Hin.
    - by apply edit_events_elem in Hin as [[=] _].
    - apply elem_of_cons in Hin as [[=]|Hin].
      by apply list_elem_of_singleton in Hin.
    - exfalso. unfold save_trace in Hsave.
      assert (∀ evs, persist_trace p evs →
                     Warn (CouldNotExecute x) ∈ evs → False) as Hpt.
      { intros evs Hpt Hx. unfold persist_trace in Hpt.
        destruct (check_mode p).
        - subst. by apply list_elem_of_singleton in Hx.
        - destruct Hpt as [out ->]. by apply list_elem_of_singleton in Hx. }
      destruct (save_when p).
      + eauto.
      + rewrite Hsave in Hin. by apply elem_of_nil in Hin.
      + destruct Hsave as (o0 & o1 & evs' & Heq & Hevs'). rewrite Heq in Hin.
        apply elem_of_app in Hin as [Hin|Hin].
        * apply elem_of_cons in Hin as [[=]|Hin].
          by apply list_elem_of_singleton in Hin.
        * case_decide; [subst; by apply elem_of_nil in Hin | eauto].
      + destruct (submitted H p); [eauto|].
        rewrite Hsave in Hin. by apply elem_of_nil in Hin.
    - by apply list_elem_of_singleton in Hin. }
  split.
  - intros x. rewrite Hloc. unfold drift_events. cbv zeta. case_decide as Hd.
    + rewrite Hd. split; [by intros ?%elem_of_nil | by intros [_ ?]].
    + rewrite list_elem_of_singleton. split.
      * by intros [= ->].
      * by intros [-> _].
  - intros Hlines e Hin [x ->]. apply Hloc in Hin.
    unfold drift_events in Hin. cbv zeta in Hin.
    rewrite (get_list_from_params_strip (lines p)) in Hin.
    rewrite (truthy_false_items _ Hlines) in Hin.
    assert (get_diff (Py.strip <$> []) (configuration_to_list (o_running o))
              (get_list_from_params (diff_ignore_lines p)) = []) as Hnil
      by (by rewrite get_diff_filter).
    rewrite Hnil in Hin. by apply elem_of_nil in Hin.
Qed.

Lemma drift_warning_iff_witness :
  ∃ r w, Toy.run Inputs.p_drift Toy.s_saved = (ExitJson r, w)
         ∧ Warn (CouldNotExecute ["no hostname acos"]) ∈ trace w.
Proof.
  eassert (Toy.run Inputs.p_drift Toy.s_saved = (ExitJson _, _)) as Hrun
    by (vm_compute; reflexivity).
  eexists _, _. split; [exact Hrun|].
  destruct (drift_warning_iff Toy.device Toy.host Inputs.p_drift Toy.s_saved
              _ _ Hrun) as (o & _ & _ & _).
  do 4 right. left.
Defined.

Lemma save_trace_elem H p c evs e :
  save_trace H p c evs → e ∈ evs →
  (∃ out, e = show_running out) ∨ (∃ out, e = show_startup out)
  ∨ e = Warn SkippingWriteMemory ∨ is_persist e.
Proof.
  assert (∀ evs', persist_trace p evs' → e ∈ evs' →
                  e = Warn SkippingWriteMemory ∨ is_persist e) as Hpt.
  { intros evs' Hpt Hin. unfold persist_trace in Hpt. destruct (check_mode p).
    - subst. apply list_elem_of_singleton in Hin. by left.
    - destruct Hpt as [out ->]. apply list_elem_of_singleton in Hin as ->.
      right. by exists out. }
  unfold save_trace. destruct (save_when p).
  - intros Hp Hin. right. right. eauto.
  - intros -> Hin. by apply elem_of_nil in Hin.
  - intros (o0 & o1 & evs' & -> & Hevs') Hin.
    apply elem_of_app in Hin as [Hin|Hin].
    + apply elem_of_cons in Hin as [->|Hin]; [left; eauto|].
      apply list_elem_of_singleton in Hin as ->. right. left. eauto.
    + case_decide; [subst; by apply elem_of_nil in Hin|]. right. right. eauto.
  - destruct c; [intros Hp Hin; right; right; eauto|].
    intros -> Hin. by apply elem_of_nil in Hin.
Qed.

(** Every event of a completed run belongs to one of its blocks. *)
Lemma completed_trace_elem H p tr o e :
  completed_trace H p tr o → e ∈ tr →
  (∃ c out, e = RunCommands c out) ∨ e ∈ o_backup o
  ∨ e = EditConfig (spliced_commands H p) ∨ (∃ x, e = Warn x).
Proof.
  intros (-> & Hfile & Hbackup & Hsave) Hin. rewrite !elem_of_app in Hin.
  destruct Hin as [Hin|[Hin|[Hin|[Hin|[Hin|[Hin|[Hin|Hin]]]]]]].
  - apply list_elem_of_singleton in Hin as ->. left. by eexists _, _.
  - destruct (runs_commands_elem _ _ _ Hfile Hin) as (c & out & _ & ->).
    left. eauto.
  - by right; left.
  - apply edit_events_elem in Hin as [-> _]. by right; right; left.
  - apply elem_of_cons in Hin as [->|Hin];
      [|apply list_elem_of_singleton in Hin as ->]; left; by eexists _, _.
  - apply drift_events_elem in Hin as [x ->]. right; right; right. eauto.
  - destruct (save_trace_elem _ _ _ _ _ Hsave Hin)
      as [[out ->]|[[out ->]|[->|[out ->]]]].
    + left. by eexists _, _.
    + left. by eexists _, _.
    + right; right; right. eauto.
    + left. eauto.
  - apply list_elem_of_singleton in Hin as ->. left. by eexists _, _.
Qed.

(** X18. With [backup] set, a completed run reads the configuration with
    [get_config] (with the default flag as [defaults] says), hands that
    text to [backup] and reports it under [__backup__]; this happens after
    the commands of the candidate file, if any, and before the batch.
    Without [backup] the configuration is not read this way and nothing is
    reported. *)
Theorem backup_after_file_before_batch D H p d r w
    (Hrun : run D H p d = (ExitJson r, w)) :
  if backup p then
    ∃ before_raw file_evs contents rest,
      trace w = [show_running before_raw] ++ file_evs
                ++ [GetConfig (defaults p) contents; Backup contents] ++ rest
      ∧ runs_commands (file_commands H p) file_evs
      ∧ (∀ e, e ∈ [show_running before_raw] ++ file_evs →
              ¬ is_submit_batch e)
      ∧ r_backup r = Some contents
  else r_backup r = None ∧ ∀ e, e ∈ trace w → ¬ is_backup_event e.
Proof.
  apply run_anatomy in Hrun as (_ & o & Htr & ->).
  pose proof Htr as (Heq & Hfile & Hb & _).
  destruct (exit_result_more H p o Hb) as (_ & -> & _).
  pose proof Hb as Hb'. unfold backup_trace in Hb'. destruct (backup p).
  - destruct Hb' as (c & Hev & ->).
    exists (o_before o), (o_file o), c. eexists.
    split; [rewrite Heq, Hev; reflexivity|]. split; [done|].
    split; [|done].
    intros e [Hin|Hin]%elem_of_app Hbatch.
    + apply list_elem_of_singleton in Hin as ->. by destruct Hbatch as [? [=]].
    + by destruct (file_block_no_batch _ _ _ Hfile Hin).
  - destruct Hb' as [Hev ->]. split; [done|].
    intros e Hin Hbk.
    destruct (completed_trace_elem _ _ _ _ _ Htr Hin)
      as [(c & out & ->)|[Hin'|[->|[x ->]]]].
    + by destruct Hbk as [(? & ? & [=])|(? & [=])].
    + rewrite Hev in Hin'. by apply elem_of_nil in Hin'.
    + by destruct Hbk as [(? & ? & [=])|(? & [=])].
    + by destruct Hbk as [(? & ? & [=])|(? & [=])].
Qed.

Lemma backup_after_file_before_batch_witness :
  ∃ r w contents,
    Toy.run Inputs.p_backup Toy.s_saved = (ExitJson r, w)
    ∧ r_backup r = Some contents
    ∧ Backup contents ∈ trace w.
Proof.
  eassert (Toy.run Inputs.p_backup Toy.s_saved = (ExitJson _, _)) as Hrun
    by (vm_compute; reflexivity).
  pose proof (backup_after_file_before_batch Toy.device Toy.host
                Inputs.p_backup Toy.s_saved _ _ Hrun) as Hb.
  cbn [backup Inputs.p_backup] in Hb.
  destruct Hb as (b & evs & contents & rest & Htr & _ & _ & Hr).
  eexists _, _, contents. split; [exact Hrun|]. split; [exact Hr|].
  rewrite Htr, !elem_of_app. right. right. left. right. left.
Defined.

(** X19. An option that was not given leaves no key in the result: no
    [success] and no mismatch list without an intended configuration, no
    [diff_against_found] and no [startup_diff] without [diff_against], no
    [__backup__] without [backup]. *)
Theorem absent_options_leave_no_keys D H p d r w
    (Hrun : run D H p d = (ExitJson r, w)) :
  (Py.truthy (intended_config p) = false →
   r_success r = None
   ∧ r_failed_diff_lines_between_intended_candidate r = None)
  ∧ (diff_against p = None →
     r_diff_against_found r = None ∧ r_startup_diff r = None)
  ∧ (backup p = false → r_backup r = None).
Proof.
  apply run_anatomy in Hrun as (_ & o & (_ & _ & Hb & _) & ->).
  destruct (exit_result_keys H p o Hb) as (-> & -> & _).
  destruct (exit_result_more H p o Hb) as (_ & -> & Hda).
  split; [|split; [done|]].
  - intros Hint. unfold intended_step. by rewrite Hint.
  - intros Hbk. unfold backup_trace in Hb. rewrite Hbk in Hb.
    by destruct Hb as [_ ->].
Qed.

Lemma absent_options_leave_no_keys_witness :
  ∃ r w, Toy.run Toy.p_remove Toy.s_dns = (ExitJson r, w)
         ∧ r_success r = None ∧ r_diff_against_found r = None
         ∧ r_backup r = None.
Proof.
  eassert (Toy.run Toy.p_remove Toy.s_dns = (ExitJson _, _)) as Hrun
    by (vm_compute; reflexivity).
  eexists _, _. split; [exact Hrun|].
  destruct (absent_options_leave_no_keys Toy.device Toy.host Toy.p_remove
              Toy.s_dns _ _ Hrun) as (Hint & Hda & Hbk).
  split; [by apply Hint|]. split; [by apply Hda | by apply Hbk].
Defined.

(** X20. The intent check looks at the parameters only: two completed runs
    whose intended configuration, explicit lines and ignore lines agree
    report the same [success] and the same mismatch list, whatever the
    devices answer and whatever the other options are. *)
Theorem intent_check_ignores_device D H p d r w D' H' p' d' r' w'
    (Hint : intended_config p = intended_config p')
    (Hlines : lines p = lines p')
    (Hign : diff_ignore_lines p = diff_ignore_lines p')
    (Hrun : run D H p d = (ExitJson r, w))
    (Hrun' : run D' H' p' d' = (ExitJson r', w')) :
  r_success r = r_success r'
  ∧ r_failed_diff_lines_between_intended_candidate r
    = r_failed_diff_lines_between_intended_candidate r'.
Proof.
  apply run_anatomy in Hrun as (_ & o & (_ & _ & Hb & _) & ->).
  apply run_anatomy in Hrun' as (_ & o' & (_ & _ & Hb' & _) & ->).
  destruct (exit_result_keys H p o Hb) as (-> & -> & _).
  destruct (exit_result_keys H' p' o' Hb') as (-> & -> & _).
  unfold intended_step, get_intended_config, candidate_lines,
    diff_ignore_lines_list.
  by rewrite Hint, Hlines, Hign.
Qed.

Lemma intent_check_ignores_device_witness :
  ∃ r w r' w',
    Toy.run Toy.p_intended Toy.s_dns = (ExitJson r, w)
    ∧ Toy.run (Toy.with_check_mode true Toy.p_intended) Toy.s_saved
      = (ExitJson r', w')
    ∧ r_success r = r_success r'.
Proof.
  eassert (Toy.run Toy.p_intended Toy.s_dns = (ExitJson _, _)) as Hrun
    by (vm_compute; reflexivity).
  eassert (Toy.run (Toy.with_check_mode true Toy.p_intended) Toy.s_saved
           = (ExitJson _, _)) as Hrun'
    by (vm_compute; reflexivity).
  eexists _, _, _, _. split; [exact Hrun|]. split; [exact Hrun'|].
  apply (intent_check_ignores_device
           Toy.device Toy.host Toy.p_intended Toy.s_dns _ _
           Toy.device Toy.host (Toy.with_check_mode true Toy.p_intended)
           Toy.s_saved _ _ eq_refl eq_refl eq_refl Hrun Hrun').
Defined.

(** X21. [get_running_config]: a running configuration given as a module
    parameter is returned as it is and the device is not asked; otherwise
    a configuration the caller has at hand is returned without asking the
    device, but only when [defaults] is off; in every other case the device
    is asked once with [get_config]. The function sends nothing else. *)
Theorem get_running_config_sources D p running_config current_config flags
    (w : World D) out w'
    (Hrun : get_running_config D p running_config current_config flags w
            = (out, w')) :
  (Py.truthy_path running_config = true →
   out = default "" running_config ∧ w' = w)
  ∧ (Py.truthy_path running_config = false → defaults p = false →
     Py.truthy_path current_config = true →
     out = default "" current_config ∧ w' = w)
  ∧ (Py.truthy_path running_config = false →
     defaults p = true ∨ Py.truthy_path current_config = false →
     trace w' = trace w ++ [GetConfig flags out])
  ∧ (trace w' = trace w ∨ trace w' = trace w ++ [GetConfig flags out]).
Proof.
  unfold get_running_config in Hrun. cbv zeta in Hrun.
  assert (∀ u u', get_config D flags w = (u, u') →
                  trace u' = trace w ++ [GetConfig flags u]) as Hget.
  { intros u u'. unfold get_config.
    destruct (dev_get_config D flags (device w)). by intros [= <- <-]. }
  destruct (Py.truthy_path running_config); simpl in Hrun.
  { injection Hrun as <- <-. repeat split; try done. by left. }
  destruct (defaults p); simpl in Hrun.
  { apply Hget in Hrun. repeat split; try done. by right. }
  destruct (Py.truthy_path current_config).
  - injection Hrun as <- <-. repeat split; try done.
    + by intros _ [|].
    + by left.
  - apply Hget in Hrun. repeat split; try done. by right.
Qed.

Lemma get_running_config_sources_witness :
  ∃ out w',
    get_running_config Toy.device Toy.params None (Some "hostname acos") false
      (Build_World Toy.device Toy.s_dns []) = (out, w')
    ∧ out = "hostname acos" ∧ trace w' = [].
Proof.
  eassert (get_running_config Toy.device Toy.params None
             (Some "hostname acos") false
             (Build_World Toy.device Toy.s_dns []) = (_, _)) as Hrun
    by (vm_compute; reflexivity).
  eexists _, _. split; [exact Hrun|].
  destruct (get_running_config_sources _ _ _ _ _ _ _ _ Hrun)
    as (_ & Hcur & _ & _).
  destruct Hcur as [-> ->]; done.
Defined.

(** ** The events before the save policy *)

(** Before the save policy a completed run sends, through [run_commands],
    show commands and the commands of the file block only; the other events
    are those of the backup block, the batch and the drift warning. *)
Lemma completed_trace_pre_elem H p tr o :
  completed_trace H p tr o →
  ∃ pre, tr = pre ++ o_save o ++ [show_running (o_after o)]
    ∧ ∀ e, e ∈ pre →
        (∃ c out, e = RunCommands c out
                  ∧ (is_show_command c ∨ c ∈ file_commands H p))
        ∨ is_backup_event e
        ∨ e = EditConfig (spliced_commands H p)
        ∨ is_drift_warning e.
Proof.
  intros Htr.
  destruct (completed_trace_before_save _ _ _ _ Htr) as (pre & Heq & -> & _).
  destruct Htr as (_ & Hfile & Hbackup & _).
  eexists. split; [exact Heq|].
  intros e Hin. rewrite !elem_of_app in Hin.
  destruct Hin as [Hin|[Hin|[Hin|[Hin|[Hin|Hin]]]]].
  - apply list_elem_of_singleton in Hin as ->. left.
    eexists _, _. split; [done|]. left. by left.
  - destruct (runs_commands_elem _ _ _ Hfile Hin) as (c & out & Hc & ->).
    left. eexists _, _. split; [done|]. by right.
  - right. left. unfold backup_trace in Hbackup. destruct (backup p).
    + destruct Hbackup as (c & Hev & _). rewrite Hev in Hin.
      apply elem_of_cons in Hin as [->|Hin].
      * left. by eexists _, _.
      * apply list_elem_of_singleton in Hin as ->. right. by eexists.
    + destruct Hbackup as [Hev _]. rewrite Hev in Hin.
      by apply elem_of_nil in Hin.
  - apply edit_events_elem in Hin as [-> _]. right. right. by left.
  - left. apply elem_of_cons in Hin as [->|Hin];
      [|apply list_elem_of_singleton in Hin as ->];
      eexists _, _; (split; [done|]); left; [by left | by right].
  - right. right. right. unfold drift_events in Hin. cbv zeta in Hin.
    case_decide; [by apply elem_of_nil in Hin|].
    apply list_elem_of_singleton in Hin as ->. by eexists.
Qed.

(** What [save_config] leaves is found in the save policy's part of the
    trace only. *)
Lemma completed_trace_save_config H p tr o :
  completed_trace H p tr o →
  ((∃ e, e ∈ tr ∧ is_save_config e) ↔ (∃ e, e ∈ o_save o ∧ is_save_config e)).
Proof.
  intros Htr.
  destruct (completed_trace_before_save _ _ _ _ Htr) as (pre & Heq & _ & Hnp).
  destruct (completed_trace_pre_elem _ _ _ _ Htr) as (pre' & Heq' & Hpre).
  assert (pre' = pre) as ->.
  { rewrite Heq in Heq'. by apply app_inv_tail in Heq'. }
  split.
  - intros (e & Hin & Hs). exists e. split; [|done].
    rewrite Heq, !elem_of_app in Hin. destruct Hin as [Hin|[Hin|Hin]]; [|done|].
    + exfalso. destruct Hs as [Hp| ->]; [by apply (Hnp e)|].
      destruct (Hpre _ Hin)
        as [(? & ? & [=] & _)|[[(? & ? & [=])|(? & [=])]|[[=]|(? & [=])]]].
    + apply list_elem_of_singleton in Hin as ->.
      destruct Hs as [[? [=]]|[=]].
  - intros (e & Hin & Hs). exists e. split; [|done].
    rewrite Heq, !elem_of_app. by right; left.
Qed.

(** ** The save policy under [modified] *)

(** C6. With [save_when = modified] the run fetches the running and the
    startup configuration once more, after the drift check, and compares
    their fingerprints (computed with the ignore lines). The persist action
    [save_config] is invoked exactly when the two fingerprints differ; when
    they are equal it is not invoked and the save command is never issued.
    Invoked, [save_config] issues the save command, or in a dry run skips
    it and records the warning; so the command itself is issued exactly
    when the fingerprints differ and the run is no dry run. *)
Theorem save_when_modified_compares_fingerprints D H p d r w
    (Hsave : save_when p = modified)
    (Hrun : run D H p d = (ExitJson r, w)) :
  ∃ o output0 output1 after_fetch,
    completed_trace H p (trace w) o
    ∧ o_save o = [show_running output0; show_startup output1] ++ after_fetch
    ∧ ((∃ e, e ∈ trace w ∧ is_save_config e)
       ↔ nc_sha1 H (diff_ignore_lines p) output0
         ≠ nc_sha1 H (diff_ignore_lines p) output1)
    ∧ (nc_sha1 H (diff_ignore_lines p) output0
       = nc_sha1 H (diff_ignore_lines p) output1 →
       after_fetch = [] ∧ ∀ e, e ∈ trace w → ¬ is_persist e)
    ∧ (nc_sha1 H (diff_ignore_lines p) output0
       ≠ nc_sha1 H (diff_ignore_lines p) output1 →
       if check_mode p then after_fetch = [Warn SkippingWriteMemory]
       else ∃ out, after_fetch = [RunCommands write_memory out])
    ∧ ((∃ e, e ∈ trace w ∧ is_persist e)
       ↔ nc_sha1 H (diff_ignore_lines p) output0
         ≠ nc_sha1 H (diff_ignore_lines p) output1
         ∧ check_mode p = false).
Proof.
  apply run_anatomy in Hrun as (_ & o & Htr & _).
  pose proof Htr as (_ & _ & _ & Hst). unfold save_trace in Hst.
  rewrite Hsave in Hst. destruct Hst as (o0 & o1 & evs' & Heq & Hevs').
  exists o, o0, o1, evs'. split; [done|]. split; [done|].
  rewrite (completed_trace_persist _ _ _ _ Htr),
    (completed_trace_save_config _ _ _ _ Htr), Heq.
  assert (∀ e, e ∈ [show_running o0; show_startup o1] →
               ¬ is_save_config e ∧ ¬ is_persist e) as Hfetch.
  { intros e Hin. apply elem_of_cons in Hin as [->|Hin];
      [|apply list_elem_of_singleton in Hin as ->];
      split; intros Hs; try destruct Hs as [Hs|Hs]; try done;
      by destruct Hs as [? [=]]. }
  case_decide as Hsha.
  - subst evs'. rewrite app_nil_r.
    assert (¬ ∃ e, e ∈ [show_running o0; show_startup o1] ∧ is_persist e)
      as Hnone by (intros (e & Hin & Hp); by apply (Hfetch e Hin)).
    split; [|split; [|split; [done | tauto]]].
    + split; [|done]. intros (e & Hin & Hs).
      by destruct (proj1 (Hfetch e Hin)).
    + intros _. split; [done|]. intros e Hin Hp.
      assert (∃ e, e ∈ trace w ∧ is_persist e) as Hex by eauto.
      apply (completed_trace_persist _ _ _ _ Htr) in Hex.
      rewrite Heq, app_nil_r in Hex. done.
  - assert (∃ e, e ∈ evs' ∧ is_save_config e) as (e0 & Hin0 & Hs0).
    { unfold persist_trace in Hevs'. destruct (check_mode p).
      - subst evs'. eexists. split; [left | by right].
      - destruct Hevs' as [out ->]. eexists. split; [left|].
        left. by eexists. }
    split; [|split; [done | split; [done|]]].
    + split; [done|]. intros _. exists e0. split; [|done].
      apply elem_of_app. by right.
    + split.
      * intros (e & Hin & Hp). split; [done|].
        apply elem_of_app in Hin as [Hin|Hin];
          [by destruct (proj2 (Hfetch e Hin))|].
        apply (persist_trace_persist _ _ Hevs'). eauto.
      * intros [_ Hcm]. apply (persist_trace_persist _ _ Hevs') in Hcm
          as (e & Hin & Hp).
        exists e. split; [|done]. apply elem_of_app. by right.
Qed.

Lemma save_when_modified_compares_fingerprints_witness :
  ∃ r w o output0 output1,
    Toy.run Toy.p_save_modified Toy.s_dns = (ExitJson r, w)
    ∧ completed_trace Toy.host Toy.p_save_modified (trace w) o
    ∧ nc_sha1 Toy.host None output0 ≠ nc_sha1 Toy.host None output1.
Proof.
  eassert (Toy.run Toy.p_save_modified Toy.s_dns = (ExitJson _, _)) as Hrun
    by (vm_compute; reflexivity).
  destruct (save_when_modified_compares_fingerprints Toy.device Toy.host
              Toy.p_save_modified Toy.s_dns _ _ eq_refl Hrun)
    as (o & o0 & o1 & evs & Htr & _ & Hiff & _).
  eexists _, _, o, o0, o1. split; [exact Hrun|]. split; [exact Htr|].
  apply Hiff. exists (RunCommands write_memory "").
  split; [do 5 right; left | left; by eexists].
Defined.

(** ** The startup diff and the last snapshot *)

(** [main] is its part before the last snapshot, followed by the last
    snapshot and the comparison that overwrites [changed]. *)
Lemma main_factors D H p (w : World D) :
  main D H p w
  = let (x, w') := main_before_last_snapshot D H p w in
    match x with
    | inl msg => (FailJson msg, w')
    | inr (before_config_list, result) =>
        let (result', w'') := final_step D before_config_list result w' in
        (ExitJson result', w'')
    end.
Proof.
  unfold main, main_before_last_snapshot, bind, ret.
  destruct (check_args p); [reflexivity|].
  destruct (run_commands D "show running-config" w) as [before_raw w0].
  destruct (load_file D H p w0) as [[] w1]; [|reflexivity].
  destruct (reconcile D H p result_init w1) as [[[sl rl] res] w2].
  destruct (final_step D _ _ w2) as [r' w3]. reflexivity.
Qed.

(** The trace and the result of a run when the last snapshot is about to
    be taken. *)
Lemma prefix_anatomy D H p d before_lines r_mid w_mid :
  main_before_last_snapshot D H p (Build_World D d [])
  = (inr (before_lines, r_mid), w_mid) →
  ∃ before_raw running_raw startup_raw file_evs backup_evs r_b save_evs,
    before_lines = configuration_to_list before_raw
    ∧ trace w_mid
      = [show_running before_raw] ++ file_evs ++ backup_evs
        ++ edit_events H p
        ++ [show_running running_raw; show_startup startup_raw]
        ++ drift_events p running_raw ++ save_evs
    ∧ runs_commands (file_commands H p) file_evs
    ∧ backup_trace p backup_evs result_init r_b
    ∧ save_trace H p (submitted H p) save_evs
    ∧ r_mid = startup_diff_step p (configuration_to_list startup_raw)
                (configuration_to_list running_raw)
                (intended_step p (candidate_result H p r_b)).
Proof.
  unfold main_before_last_snapshot.
  destruct (check_args p) as [msg|]; [by intros [=]|].
  unfold bind at 1.
  destruct (run_commands D "show running-config" _) as [before_raw w0] eqn:H0.
  apply run_commands_trace in H0. simpl in H0.
  unfold bind at 1.
  destruct (load_file D H p w0) as [ok w1] eqn:H1.
  apply load_file_trace in H1. destruct ok; [|by intros [=]].
  destruct H1 as (file_evs & H1 & Hfile).
  unfold bind at 1, reconcile.
  unfold bind at 1.
  destruct (backup_step D p result_init w1) as [r_b w2] eqn:H2.
  apply backup_step_trace in H2 as (backup_evs & H2 & Hbackup).
  unfold bind at 1.
  destruct (candidate_step D H p r_b w2) as [r_c w3] eqn:H3.
  apply candidate_step_trace in H3 as [H3 ->].
  unfold bind at 1.
  destruct (run_commands D "show running-config" w3) as [running_raw w4] eqn:H4.
  apply run_commands_trace in H4.
  unfold bind at 1.
  destruct (run_commands D "show startup-config" w4) as [startup_raw w5] eqn:H5.
  apply run_commands_trace in H5.
  unfold bind at 1.
  destruct (drift_step D p (configuration_to_list running_raw) w5)
    as [u6 w6] eqn:H6.
  apply drift_step_trace in H6.
  unfold bind at 1.
  destruct (save_step D H p _ w6) as [u7 w7] eqn:H7.
  apply save_step_trace in H7 as (save_evs & H7 & Hsave).
  rewrite intended_step_changed, candidate_result_changed in Hsave
    by (by rewrite (backup_trace_changed _ _ _ _ Hbackup)).
  unfold ret. intros [= <- <- <-].
  exists before_raw, running_raw, startup_raw, file_evs, backup_evs, r_b,
    save_evs.
  split; [done|]. split; [|done].
  rewrite H7, H6, H5, H4, H3, H2, H1, H0. rewrite <- !app_assoc. done.
Qed.

(** C7. When the diff against the startup configuration is asked for, the
    diff is taken with the startup lines as expected and the running lines
    as actual, both from the second snapshot: it holds the startup lines
    that are no comments, are not ignored and are missing from the running
    lines. When it is not empty, the result dictionary has
    [changed = true] when the last snapshot is about to be taken, and the
    run reports the diff as found, with the diff; when it is empty,
    [changed = false] at that point, and the run reports it as not found,
    with no diff. The last snapshot then overwrites [changed] and nothing
    else: the reported [changed] is true exactly when some line of the last
    snapshot is absent from the first one. *)
Theorem startup_diff_then_last_writer D H p d r w
    (Hda : diff_against p = Some startup)
    (Hrun : run D H p d = (ExitJson r, w)) :
  ∃ o r_mid w_mid,
    completed_trace H p (trace w) o
    ∧ main_before_last_snapshot D H p (Build_World D d [])
      = (inr (configuration_to_list (o_before o), r_mid), w_mid)
    ∧ trace w = trace w_mid ++ [show_running (o_after o)]
    ∧ let startup_lines := configuration_to_list (o_startup o) in
      let running_lines := configuration_to_list (o_running o) in
      let ignore := Py.strip <$> Py.items (diff_ignore_lines p) in
      let difference := get_diff startup_lines running_lines ignore in
      difference = filter (reported running_lines ignore) startup_lines
      ∧ (difference ≠ [] →
         r_changed r_mid = true
         ∧ r_diff_against_found r = Some "yes"
         ∧ r_startup_diff r = Some (Some difference))
      ∧ (difference = [] →
         r_changed r_mid = false
         ∧ r_diff_against_found r = Some "no"
         ∧ r_startup_diff r = Some None)
      ∧ (r_changed r = true
         ↔ ∃ l, l ∈ configuration_to_list (o_after o)
                ∧ l ∉ configuration_to_list (o_before o))
      ∧ r = set_changed (r_changed r) r_mid.
Proof.
  unfold run in Hrun. rewrite main_factors in Hrun.
  destruct (main_before_last_snapshot D H p _)
    as [[msg|[before_lines r_mid]] w_mid] eqn:Hpre; [done|].
  destruct (final_step D before_lines r_mid w_mid) as [r' w''] eqn:Hfin.
  injection Hrun as -> ->.
  unfold final_step, bind, ret in Hfin.
  destruct (run_commands D "show running-config" w_mid)
    as [after_raw w3] eqn:Hlast.
  apply run_commands_trace in Hlast. injection Hfin as <- <-.
  pose proof Hpre as Hpre'.
  apply prefix_anatomy in Hpre'
    as (before_raw & running_raw & startup_raw & file_evs & backup_evs & r_b
        & save_evs & -> & Htr & Hfile & Hbackup & Hsave & Hmid).
  exists {| o_before := before_raw; o_running := running_raw;
            o_startup := startup_raw; o_after := after_raw;
            o_file := file_evs; o_backup := backup_evs;
            o_backed_up := r_b; o_save := save_evs |}, r_mid, w_mid.
  split.
  { split; [|done]. simpl. rewrite Hlast, Htr, <- !app_assoc. done. }
  split; [done|]. split; [done|]. simpl.
  split; [apply get_diff_filter|].
  rewrite <- get_list_from_params_strip.
  assert (r_mid = startup_diff_step p (configuration_to_list startup_raw)
                    (configuration_to_list running_raw)
                    (intended_step p (candidate_result H p r_b))) as Hmid'
    by done.
  unfold startup_diff_step, diff_ignore_lines_list in Hmid.
  rewrite bool_decide_eq_true_2 in Hmid by done.
  destruct (get_diff _ _ _) as [|x l] eqn:Hdiff; simpl in Hmid; subst r_mid.
  - split; [done|]. split; [done|].
    split; [apply config_changed_true | done].
  - split; [done|]. split; [done|].
    split; [apply config_changed_true | done].
Qed.

Lemma startup_diff_then_last_writer_witness :
  ∃ r w o r_mid w_mid,
    Toy.run Toy.p_diff_startup Toy.s_stale = (ExitJson r, w)
    ∧ completed_trace Toy.host Toy.p_diff_startup (trace w) o
    ∧ main_before_last_snapshot Toy.device Toy.host Toy.p_diff_startup
        (Build_World Toy.device Toy.s_stale [])
      = (inr (configuration_to_list (o_before o), r_mid), w_mid)
    ∧ r_changed r_mid = true
    ∧ r = set_changed false r_mid.
Proof.
  eassert (Toy.run Toy.p_diff_startup Toy.s_stale = (ExitJson _, _)) as Hrun
    by (vm_compute; reflexivity).
  destruct (startup_diff_then_last_writer Toy.device Toy.host
              Toy.p_diff_startup Toy.s_stale _ _ eq_refl Hrun)
    as (o & r_mid & w_mid & Htr & Hpre & _ & _ & Hyes & Hno & _ & Hr).
  eexists _, _, o, r_mid, w_mid.
  split; [exact Hrun|]. split; [exact Htr|]. split; [exact Hpre|].
  split; [|exact Hr].
  destruct (decide (get_diff (configuration_to_list (o_startup o))
                      (configuration_to_list (o_running o))
                      (Py.strip <$> Py.items (diff_ignore_lines
                                                Toy.p_diff_startup)) = []))
    as [Hnil|Hne].
  - destruct (Hno Hnil) as (_ & Hfound & _). discriminate Hfound.
  - by destruct (Hyes Hne).
Defined.

(** ** The intent check and the batch *)

(** Against C8 as stated: with the intended lines a and b, the explicit
    line a and the before block b, the batch sent to the device holds both
    intended lines, so that the diff of the intended lines against the
    submitted candidate is empty; the run reports [success = false] with b
    as missing all the same, because the check looks at the explicit lines
    only. *)
Lemma intended_line_sent_yet_reported_missing :
  ∃ r w,
    Toy.run Inputs.p_intended_before Toy.s_dns = (ExitJson r, w)
    ∧ EditConfig ["b"; "a"] ∈ trace w
    ∧ (∀ e, e ∈ trace w → is_submit_batch e → e = EditConfig ["b"; "a"])
    ∧ r_commands r = Some ["b"; "a"]
    ∧ get_diff ["a"; "b"] ["b"; "a"] [] = []
    ∧ r_success r = Some false
    ∧ r_failed_diff_lines_between_intended_candidate r = Some ["b"].
Proof.
  eexists _, _.
  split; [vm_compute; reflexivity|].
  split; [right; left|].
  split.
  { intros e Hin [cmds ->]. simpl in Hin.
    repeat (apply elem_of_cons in Hin as [Hin|Hin]; [by inversion Hin|]).
    by apply elem_of_nil in Hin. }
  split; [reflexivity|].
  split; [vm_compute; reflexivity|].
  split; reflexivity.
Qed.

Lemma no_newline_indent n s : no_newline s = true → no_newline (indent n s) = true.
Proof. intros Hs. induction n as [|n IH]; simpl; done. Qed.

Lemma candidate_items_no_newline lines parents :
  Forall (fun x => no_newline x = true) (lines ++ parents) →
  Forall (fun x => no_newline x = true) (candidate_items lines parents).
Proof.
  intros [Hl Hp]%Forall_app. unfold candidate_items. apply Forall_app. split.
  - apply Forall_forall. intros x (i & y & -> & Hy)%elem_of_lookup_imap.
    apply no_newline_indent. rewrite Forall_forall in Hp. apply Hp.
    by eapply list_elem_of_lookup_2.
  - apply Forall_fmap. eapply Forall_impl; [exact Hl|].
    intros x Hx. by apply no_newline_indent.
Qed.

(** C9. With the serialiser of the specification and explicit lines and
    parents that hold no line break: when the batch is sent, it is sent
    once, and it is the before lines, then the parents, then the explicit
    lines, then the after lines. The explicit lines stand in the order
    given, the i-th line at the i-th place after the before lines and the
    parents, each behind one space per parent; without parents the batch
    is the before lines, the explicit lines and the after lines as they
    were given. The same list is reported under [commands]. An absent
    before or after block counts as empty. *)
Theorem splice_order_preserved D H p d r w
    (Hser : ∀ lines parents,
              nc_dumps_raw H lines parents = dumps_raw lines parents)
    (Hnl : Forall (fun x => no_newline x = true)
                  (Py.items (lines p) ++ Py.items (parents p)))
    (Hsub : submitted H p = true)
    (Hrun : run D H p d = (ExitJson r, w)) :
  let normalized :=
    candidate_items (Py.items (lines p)) (Py.items (parents p)) in
  let commands := Py.items (before p) ++ normalized ++ Py.items (after p) in
  (∀ e, e ∈ trace w ∧ is_submit_batch e ↔ e = EditConfig commands)
  ∧ (∃ pre post, trace w = pre ++ [EditConfig commands] ++ post
                 ∧ ∀ e, e ∈ pre ++ post → ¬ is_submit_batch e)
  ∧ r_commands r = Some commands
  ∧ (∀ i l, Py.items (lines p) !! i = Some l →
            commands !! (length (Py.items (before p))
                         + length (Py.items (parents p)) + i)
            = Some (indent (length (Py.items (parents p))) l))
  ∧ (Py.items (parents p) = [] →
     commands = Py.items (before p) ++ Py.items (lines p)
                ++ Py.items (after p)).
Proof.
  apply run_anatomy in Hrun as (_ & o & Htr & ->).
  assert (Py.truthy (lines p) = true) as Hlines.
  { unfold submitted, built in Hsub. by destruct (Py.truthy (lines p)). }
  assert (spliced_commands H p
          = Py.items (before p)
            ++ candidate_items (Py.items (lines p)) (Py.items (parents p))
            ++ Py.items (after p)) as Hsp.
  { unfold spliced_commands, get_candidate_config. rewrite Hlines, Hser.
    unfold dumps_raw. rewrite split_lines_join; [done| |].
    - unfold candidate_items. destruct (lines p) as [[|x l]|]; try done.
      intros [_ [=]]%app_eq_nil.
    - by apply candidate_items_no_newline. }
  cbv zeta. rewrite <- Hsp. split; [|split; [|split; [|split]]].
  - intros e. rewrite (completed_trace_batch _ _ _ _ Htr). tauto.
  - destruct (completed_trace_pre_elem _ _ _ _ Htr) as (pre & Heq & Hpre).
    pose proof Htr as (Htr' & Hfile & Hbackup & Hsave).
    unfold edit_events in Htr'. rewrite Hsub in Htr'.
    exists ([show_running (o_before o)] ++ o_file o ++ o_backup o),
      ([show_running (o_running o); show_startup (o_startup o)]
       ++ drift_events p (o_running o) ++ o_save o
       ++ [show_running (o_after o)]).
    split; [by rewrite Htr', <- !app_assoc|].
    intros e Hin Hb. rewrite !elem_of_app in Hin.
    destruct Hin as [[Hin|[Hin|Hin]]|[Hin|[Hin|[Hin|Hin]]]].
    + apply list_elem_of_singleton in Hin as ->. by destruct Hb as [? [=]].
    + by destruct (file_block_no_batch _ _ _ Hfile Hin).
    + by destruct (proj2 (backup_block_plain _ _ _ _ _ Hbackup Hin)).
    + apply elem_of_cons in Hin as [->|Hin];
        [|apply list_elem_of_singleton in Hin as ->];
        by destruct Hb as [? [=]].
    + apply drift_events_elem in Hin as [x ->]. by destruct Hb as [? [=]].
    + by destruct (save_trace_no_batch _ _ _ _ _ Hsave Hin).
    + apply list_elem_of_singleton in Hin as ->. by destruct Hb as [? [=]].
  - destruct Htr as (_ & _ & Hb & _).
    destruct (exit_result_keys H p o Hb) as (_ & _ & ->).
    unfold submitted in Hsub. apply andb_true_iff in Hsub as [-> _]. done.
  - intros i l Hi. rewrite Hsp. unfold candidate_items.
    rewrite <- Nat.add_assoc.
    rewrite lookup_app_r by lia.
    replace (length (Py.items (before p))
             + (length (Py.items (parents p)) + i)
             - length (Py.items (before p)))
      with (length (Py.items (parents p)) + i) by lia.
    rewrite <- app_assoc.
    rewrite lookup_app_r by (rewrite length_imap; lia).
    rewrite length_imap.
    replace (length (Py.items (parents p)) + i
             - length (Py.items (parents p))) with i by lia.
    rewrite lookup_app_l
      by (rewrite length_fmap; by eapply lookup_lt_Some).
    by rewrite list_lookup_fmap, Hi.
  - intros Hnop. rewrite Hsp. unfold candidate_items. rewrite Hnop. simpl.
    do 2 f_equal. clear. induction (Py.items (lines p)) as [|x l IH]; [done|].
    simpl. f_equal. exact IH.
Qed.

Lemma splice_order_preserved_witness :
  ∃ r w,
    run Toy.device Inputs.host_spec Inputs.p_splice_parent Toy.s_dns
    = (ExitJson r, w)
    ∧ r_commands r
      = Some ["no slb server s0"; "slb server s1 10.0.0.1";
              " port 80 tcp"; " port 443 tcp"; "end"].
Proof.
  eassert (run Toy.device Inputs.host_spec Inputs.p_splice_parent Toy.s_dns
           = (ExitJson _, _)) as Hrun
    by (vm_compute; reflexivity).
  eexists _, _. split; [exact Hrun|].
  assert (∀ lines parents,
            nc_dumps_raw Inputs.host_spec lines parents
            = dumps_raw lines parents) as Hser by reflexivity.
  assert (Forall (fun x => no_newline x = true)
            (Py.items (lines Inputs.p_splice_parent)
             ++ Py.items (parents Inputs.p_splice_parent))) as Hnl
    by (repeat constructor).
  destruct (splice_order_preserved Toy.device Inputs.host_spec
              Inputs.p_splice_parent Toy.s_dns _ _ Hser Hnl eq_refl Hrun)
    as (_ & _ & Hc & _).
  exact Hc.
Defined.

(** ** Trimming of the parameters, and what a run sends *)

(** X8. [get_list_from_params] trims each line and keeps the number and the
    order of the lines; an absent parameter and an empty list give the
    empty list; every line returned is trimmed, so that passing the result
    through again changes nothing. On an intended configuration that is
    given, [get_intended_config] returns the same list as
    [get_list_from_params]. *)
Theorem get_list_from_params_trims o p intended_lines
    (Hint : intended_config p = Some intended_lines) :
  get_list_from_params o = Py.strip <$> Py.items o
  ∧ get_list_from_params None = []
  ∧ get_list_from_params (Some []) = []
  ∧ length (get_list_from_params o) = length (Py.items o)
  ∧ (∀ l, l ∈ get_list_from_params o → trimmed l)
  ∧ get_list_from_params (Some (get_list_from_params o))
    = get_list_from_params o
  ∧ get_intended_config p = Py.strip <$> intended_lines
  ∧ get_intended_config p = get_list_from_params (Some intended_lines).
Proof.
  rewrite get_intended_config_strip, !get_list_from_params_strip, Hint.
  split; [done|]. split; [done|]. split; [done|].
  split; [by rewrite length_fmap|]. split; [|split; [|done]].
  - intros l (x & -> & _)%list_elem_of_fmap. apply strip_idempotent.
  - simpl. rewrite <- list_fmap_compose. apply list_fmap_ext.
    intros _ x _. apply strip_idempotent.
Qed.

Lemma get_list_from_params_trims_witness :
  get_intended_config Inputs.p_intended_padded = ["a"; "b"]
  ∧ get_list_from_params (Some [" a "; "b  "]) = ["a"; "b"].
Proof.
  destruct (get_list_from_params_trims (Some [" a "; "b  "])
              Inputs.p_intended_padded [" a "; "b  "] eq_refl)
    as (Hl & _ & _ & _ & _ & _ & Hi & _).
  rewrite Hi, Hl. split; reflexivity.
Defined.

Lemma save_trace_commands_dry_run H p c evs cmd out :
  check_mode p = true → save_trace H p c evs →
  RunCommands cmd out ∈ evs → is_show_command cmd.
Proof.
  intros Hcm Hst Hin.
  destruct (save_trace_elem _ _ _ _ _ Hst Hin)
    as [[? [= -> _]]|[[? [= -> _]]|[[=]|Hp]]].
  - by left.
  - by right.
  - by destruct (save_trace_dry_run _ _ _ _ _ Hcm Hst Hin).
Qed.

(** The commands a completed run sends through [run_commands]: show
    commands, commands of the file block, and what the save policy
    sends. *)
Lemma completed_trace_commands H p tr o cmd out :
  completed_trace H p tr o → RunCommands cmd out ∈ tr →
  is_show_command cmd ∨ cmd ∈ file_commands H p
  ∨ RunCommands cmd out ∈ o_save o.
Proof.
  intros Htr Hin.
  destruct (completed_trace_pre_elem _ _ _ _ Htr) as (pre & Heq & Hpre).
  rewrite Heq, !elem_of_app in Hin. destruct Hin as [Hin|[Hin|Hin]].
  - destruct (Hpre _ Hin)
      as [(c & o' & [= -> _] & Hc)|[[(? & ? & [=])|(? & [=])]|[[=]|(? & [=])]]].
    destruct Hc; [by left | by right; left].
  - by right; right.
  - apply list_elem_of_singleton in Hin as [= -> _]. left. by left.
Qed.

(** X11. In a dry run (check mode) the batch is never sent, and every
    command sent through [run_commands] is a show command or a command of
    the file block: entering configuration mode, a line of the candidate
    file, leaving configuration mode. [save_config] sends nothing. The
    commands of the file block are sent as in any other run. *)
Theorem dry_run_sends_file_commands_only D H p d out w
    (Hcm : check_mode p = true)
    (Hrun : run D H p d = (out, w)) :
  (∀ e, e ∈ trace w → ¬ is_submit_batch e)
  ∧ (∀ cmd response, RunCommands cmd response ∈ trace w →
       is_show_command cmd ∨ cmd ∈ file_commands H p).
Proof.
  destruct out as [r|msg].
  - apply run_anatomy in Hrun as (_ & o & Htr & _). split.
    + intros e Hin Hb.
      assert (e ∈ trace w ∧ is_submit_batch e) as He by done.
      apply (completed_trace_batch _ _ _ _ Htr) in He as [_ Hs].
      unfold submitted in Hs. rewrite Hcm, andb_false_r in Hs. done.
    + intros cmd response Hin.
      destruct (completed_trace_commands _ _ _ _ _ _ Htr Hin)
        as [Hs|[Hf|Hsave]]; [by left | by right|].
      left. destruct Htr as (_ & _ & _ & Hst).
      by eapply save_trace_commands_dry_run.
  - apply failed_run_trace in Hrun as [Hw|[b Hw]]; rewrite Hw; split.
    + by intros e ?%elem_of_nil.
    + by intros cmd response ?%elem_of_nil.
    + intros e ->%list_elem_of_singleton [? [=]].
    + intros cmd response [= -> _]%list_elem_of_singleton. left. by left.
Qed.

Lemma dry_run_sends_file_commands_only_witness :
  Forall (fun e => ¬ is_submit_batch e)
         (trace (Toy.run Inputs.p_dry_run Toy.s_dns).2).
Proof.
  apply Forall_forall.
  apply (dry_run_sends_file_commands_only Toy.device Toy.host
           Inputs.p_dry_run Toy.s_dns (Toy.run Inputs.p_dry_run Toy.s_dns).1).
  - reflexivity.
  - unfold Toy.run. by destruct (run _ _ _ _).
Defined.

(** X13. With [save_when = always] a completed run calls [save_config] as
    its last action before the final snapshot: the trace ends with the
    save command, or in a dry run with the warning that it is skipped,
    followed by the last show command. Through [run_commands] nothing but
    show commands and commands of the file block is sent before that. *)
Theorem save_always_calls_save_config D H p d r w
    (Hsave : save_when p = always)
    (Hrun : run D H p d = (ExitJson r, w)) :
  ∃ pre after_raw,
    (∀ cmd response, RunCommands cmd response ∈ pre →
       is_show_command cmd ∨ cmd ∈ file_commands H p)
    ∧ if check_mode p
      then trace w = pre ++ [Warn SkippingWriteMemory; show_running after_raw]
      else ∃ out, trace w = pre ++ [RunCommands write_memory out;
                                    show_running after_raw].
Proof.
  apply run_anatomy in Hrun as (_ & o & Htr & _).
  destruct (completed_trace_pre_elem _ _ _ _ Htr) as (pre & Heq & Hpre).
  destruct Htr as (_ & _ & _ & Hst). unfold save_trace in Hst.
  rewrite Hsave in Hst. unfold persist_trace in Hst.
  exists pre, (o_after o). split.
  - intros cmd response Hin.
    destruct (Hpre _ Hin)
      as [(c & o' & [= -> _] & Hc)|[[(? & ? & [=])|(? & [=])]|[[=]|(? & [=])]]].
    exact Hc.
  - destruct (check_mode p).
    + by rewrite Heq, Hst.
    + destruct Hst as [out Hst]. exists out. by rewrite Heq, Hst.
Qed.

Lemma save_always_calls_save_config_witness :
  ∃ r w pre out after_raw,
    Toy.run Inputs.p_save_always Toy.s_dns = (ExitJson r, w)
    ∧ trace w = pre ++ [RunCommands write_memory out; show_running after_raw].
Proof.
  eassert (Toy.run Inputs.p_save_always Toy.s_dns = (ExitJson _, _)) as Hrun
    by (vm_compute; reflexivity).
  destruct (save_always_calls_save_config Toy.device Toy.host
              Inputs.p_save_always Toy.s_dns _ _ eq_refl Hrun)
    as (pre & a & _ & out & Htr).
  eexists _, _, pre, out, a. split; [exact Hrun | exact Htr].
Defined.

(** X14. With [save_when = never], the default, the save policy sends
    nothing: every command a run sends through [run_commands] is a show
    command or a command of the file block, however the run ends. *)
Theorem save_never_sends_file_commands_only D H p d out w
    (Hsave : save_when p = never)
    (Hrun : run D H p d = (out, w)) :
  ∀ cmd response, RunCommands cmd response ∈ trace w →
    is_show_command cmd ∨ cmd ∈ file_commands H p.
Proof.
  intros cmd response Hin. destruct out as [r|msg].
  - apply run_anatomy in Hrun as (_ & o & Htr & _).
    destruct (completed_trace_commands _ _ _ _ _ _ Htr Hin)
      as [Hs|[Hf|Hin']]; [by left | by right|].
    destruct Htr as (_ & _ & _ & Hst). unfold save_trace in Hst.
    rewrite Hsave in Hst. rewrite Hst in Hin'. by apply elem_of_nil in Hin'.
  - apply failed_run_trace in Hrun as [Hw|[b Hw]]; rewrite Hw in Hin.
    + by apply elem_of_nil in Hin.
    + apply list_elem_of_singleton in Hin as [= -> _]. left. by left.
Qed.

Lemma save_never_sends_file_commands_only_witness :
  Forall (fun e => ∀ cmd response, e = RunCommands cmd response →
                   is_show_command cmd)
         (trace (Toy.run Toy.p_splice Toy.s_dns).2).
Proof.
  apply Forall_forall. intros e Hin cmd response ->.
  destruct (save_never_sends_file_commands_only Toy.device Toy.host
              Toy.p_splice Toy.s_dns (Toy.run Toy.p_splice Toy.s_dns).1
              (Toy.run Toy.p_splice Toy.s_dns).2) with (cmd := cmd)
              (response := response) as [Hs|Hf].
  - reflexivity.
  - unfold Toy.run. by destruct (run _ _ _ _).
  - exact Hin.
  - exact Hs.
  - by apply elem_of_nil in Hf.
Defined.
